(** * aioyoyo.cmdhandler: command resolution, execution and bot routing

    A shallow embedding of [src/aioyoyo/cmdhandler.py].

    Python objects are records of a class tag, an attribute dictionary and an
    optional call behaviour; attribute dictionaries are finite maps from
    names to objects.  Raised exceptions are the [Raise] side of a result
    type.  Everything a coroutine does to the outside (log records, chat
    messages, the shared client's nick) is threaded through an explicit
    [world].

    Conventions of the embedding:
    - text is modelled by [string], one character per code point below 256;
      byte-string command paths, which the source decodes to the same text
      segments before any comparison, are not represented;
    - methods are the ones the classes of this file define (no overriding
      subclass replaces [get], [run] or [__unhandled__]);
    - a value's own [__str__], [__bool__] and [__call__] are the ones of
      its class: plain tuples and [None] are not callable, and handlers,
      methods and functions are true. *)

From Stdlib Require Import Ascii.
From stdpp Require Import base strings gmap list sorting.

Set Default Proof Using "Type".
Open Scope string_scope.
Open Scope list_scope.

(** ** Text primitives used by the handlers *)

Module PyStr.

(** [s.startswith(pre)] *)
Definition startswith (s pre : string) : bool := String.prefix pre s.

(** [s.split(sep)] for a one-character separator: never an empty list,
    the empty text splits into one empty segment. *)
Fixpoint split (sep : ascii) (s : string) : list string :=
  match s with
  | EmptyString => [EmptyString]
  | String c s' =>
      if Ascii.eqb c sep then EmptyString :: split sep s'
      else match split sep s' with
           | [] => [String c EmptyString]
           | x :: xs => String c x :: xs
           end
  end.

(** [s.split(sep, 1)]: cut at the first separator only. *)
Fixpoint split1 (sep : ascii) (s : string) : list string :=
  match s with
  | EmptyString => [EmptyString]
  | String c s' =>
      if Ascii.eqb c sep then [EmptyString; s']
      else match split1 sep s' with
           | [] => [String c EmptyString]
           | x :: xs => String c x :: xs
           end
  end.

(** [str.isspace] on one character (code points below 256). *)
Definition isspace (c : ascii) : bool :=
  let n := nat_of_ascii c in
  ((9 <=? n)%nat && (n <=? 13)%nat) || ((28 <=? n)%nat && (n <=? 32)%nat)
  || (n =? 133)%nat || (n =? 160)%nat.

Fixpoint lstrip (s : string) : string :=
  match s with
  | EmptyString => EmptyString
  | String c s' => if isspace c then lstrip s' else s
  end.

Fixpoint rstrip (s : string) : string :=
  match s with
  | EmptyString => EmptyString
  | String c s' =>
      match rstrip s' with
      | EmptyString => if isspace c then EmptyString else String c EmptyString
      | r => String c r
      end
  end.

(** [s.strip()] *)
Definition strip (s : string) : string := rstrip (lstrip s).

(** [s[n:]] *)
Fixpoint slice_from (n : nat) (s : string) : string :=
  match n, s with
  | O, _ => s
  | S _, EmptyString => EmptyString
  | S n', String _ s' => slice_from n' s'
  end.

(** [sep.join(parts)] *)
Fixpoint join (sep : string) (parts : list string) : string :=
  match parts with
  | [] => EmptyString
  | [x] => x
  | x :: rest => x +:+ sep +:+ join sep rest
  end.

End PyStr.

(** ** Errors and results *)

(** What a caller hands to [get] and [run]: a dotted string or an
    already-split sequence of segments. *)
Inductive command_input :=
  | CmdStr (s : string)
  | CmdList (parts : list string).

(** The exception classes the module raises or lets through.
    [NoSuchCommandError] and [ProtectedCommandError] are subclasses of
    [CommandError]; [UnboundLocalError] is a subclass of [NameError].
    [OtherError] stands for any other subclass of [Exception], and
    [BaseOnly] for the classes that derive from [BaseException] without
    deriving from [Exception]: [SystemExit], [KeyboardInterrupt],
    [GeneratorExit], [asyncio.CancelledError]. *)
Inductive exn :=
  | CommandError (cmd : command_input)
  | NoSuchCommandError (cmd : list string)
  | ProtectedCommandError (cmd : list string)
  | UnboundLocalError (var : string)
  | AttributeError (name : string)
  | TypeError
  | OtherError (name : string)
  | BaseOnly (name : string).

(** [isinstance(e, Exception)], as tested by [except Exception]. *)
Definition is_Exception (e : exn) : bool :=
  match e with
  | BaseOnly _ => false
  | _ => true
  end.

(** [isinstance(e, CommandError)], as tested by [except CommandError]. *)
Definition is_CommandError (e : exn) : bool :=
  match e with
  | CommandError _ | NoSuchCommandError _ | ProtectedCommandError _ => true
  | _ => false
  end.

(** [isinstance(e, NameError)] *)
Definition is_NameError (e : exn) : bool :=
  match e with
  | UnboundLocalError _ => true
  | _ => false
  end.

Inductive result (A : Type) :=
  | Return (a : A)
  | Raise (e : exn).
Arguments Return {A} a.
Arguments Raise {A} e.

(** Sequencing: a raised exception skips the rest. *)
#[export] Instance result_ret : MRet result := fun A a => Return a.
#[export] Instance result_bind : MBind result := fun A B k r =>
  match r with
  | Return a => k a
  | Raise e => Raise e
  end.

(** ** The world outside the handlers *)

Inductive log_level := DEBUG | INFO | ERROR.

(** One constructor per logging call site of the module. *)
Inductive log_text :=
  | ProcessCommand (command : command_input) (args : list string)
  | ResolvedTo
  | CommandRaised (e : exn)
  | Traceback
  | UnhandledCommand (cmd : command_input) (args : list string)
  | TryBotCommand (prefix dest msg : string).

Inductive event :=
  | Logged (lvl : log_level) (text : log_text)
  | Privmsg (dest text : string)
  | Effect (what : string).

(** The shared client (only its [nick] is read here) and the trace of what
    has been logged, sent or done so far, oldest first. *)
Record world := World { nick : string; trace : list event }.

Definition emit (ev : event) (w : world) : world :=
  World (nick w) (trace w ++ [ev]).

(** What awaiting [f(client, *args)] does: it may read and change the world,
    and it returns or raises. *)
Definition behaviour := list string -> world -> world * result unit.

(** ** Objects *)

Inductive pyclass :=
  | ClsCommandHandler   (* CommandHandler and its subclasses *)
  | ClsMethod           (* bound methods: inspect.ismethod *)
  | ClsFunction         (* plain functions: inspect.isfunction *)
  | ClsNone             (* None *)
  | ClsTuple (n : nat)  (* a tuple of n items *)
  | ClsFalsy            (* any other false value: 0, False, empty text, an
                           empty list or dict, an instance whose __bool__
                           or __len__ says so *)
  | ClsObject.          (* anything else; such a value is true *)

#[warning="-register-all"]
Inductive value :=
  Obj (cls : pyclass) (attrs : gmap string value) (call : option behaviour).

Definition cls_of (v : value) : pyclass := match v with Obj c _ _ => c end.
Definition attrs_of (v : value) : gmap string value :=
  match v with Obj _ a _ => a end.
Definition call_of (v : value) : option behaviour :=
  match v with Obj _ _ b => b end.

(** [getattr(v, name)]; [None] stands for [AttributeError]. *)
Definition getattr (v : value) (name : string) : option value :=
  attrs_of v !! name.

(** [hasattr(v, name)] *)
Definition hasattr (v : value) (name : string) : bool :=
  bool_decide (is_Some (getattr v name)).

Definition PyTrue : value := Obj ClsObject ∅ None.

(** [None]: its only attributes are double-underscore names, which no code
    path of this module ever looks up on it; they are left out. *)
Definition PyNone : value := Obj ClsNone ∅ None.

(** Truth value of an object, for [obj or self]: [None], the empty tuple
    and the other false values are false. *)
Definition truthy (v : value) : bool :=
  match cls_of v with
  | ClsNone | ClsFalsy | ClsTuple O => false
  | _ => true
  end.

(** [isinstance(v, CommandHandler)] *)
Definition is_CommandHandler (v : value) : bool :=
  match cls_of v with ClsCommandHandler => true | _ => false end.

(** The decorator [protected]: sets [func.protected = True]. *)
Definition protected (func : value) : value :=
  Obj (cls_of func) (<["protected" := PyTrue]> (attrs_of func)) (call_of func).

(** ** CommandHandler.get *)

(** The first two branches of [get]: a string is split on dots, a sequence
    is used as it is. *)
Definition normalize (input : command_input) : list string :=
  match input with
  | CmdStr s => PyStr.split "."%char s
  | CmdList parts => parts
  end.

(** The [while command_parts] loop.  [p] is the cursor, [f] the last value
    bound by the loop body ([None] while it is still unbound) and
    [in_command_parts] what errors report.  The call [f.get(command_parts)]
    starts a fresh invocation on the popped list, which becomes that
    invocation's [in_command_parts]. *)
Fixpoint get_loop (in_command_parts : list string) (p : value)
    (f : option value) (command_parts : list string) : result value :=
  match command_parts with
  | [] =>
      match f with
      | Some v => Return v
      | None => Raise (UnboundLocalError "f")
      end
  | cmd :: rest =>
      if PyStr.startswith cmd "_" then
        Raise (ProtectedCommandError in_command_parts)
      else
        match getattr p cmd with
        | None => Raise (NoSuchCommandError in_command_parts)
        | Some v =>
            if hasattr v "protected" then
              Raise (ProtectedCommandError in_command_parts)
            else if is_CommandHandler v && negb (bool_decide (rest = [])) then
              get_loop rest v None rest
            else
              get_loop in_command_parts v (Some v) rest
        end
  end.

Definition get (self : value) (input : command_input) : result value :=
  let in_command_parts := normalize input in
  get_loop in_command_parts self None in_command_parts.

(** Reading the nested attribute chain [root.a.b.c] directly. *)
Fixpoint attr_chain (root : value) (path : list string) : option value :=
  match path with
  | [] => Some root
  | a :: rest => v ← getattr root a; attr_chain v rest
  end.

(** Every segment of [path] is free of a leading underscore, names an
    attribute of the node reached so far, and that attribute does not carry
    the protection flag. *)
Fixpoint open_path (root : value) (path : list string) : bool :=
  match path with
  | [] => true
  | a :: rest =>
      negb (PyStr.startswith a "_") &&
      match getattr root a with
      | Some v => negb (hasattr v "protected") && open_path v rest
      | None => false
      end
  end.

(** ** Collaborators that live outside this file *)

(** Modelled from the spec: the error classes of [.oyoyo.cmdhandler] are
    missing here; their rendering follows the texts of the spec's external
    interfaces, ["No such command: <path>"], ["<path> is protected"] and
    ["Command <name> failed"], a path being its segments joined by dots.
    Only instances of [CommandError] are ever rendered by this file. *)
Definition str_command (c : command_input) : string :=
  match c with
  | CmdStr s => s
  | CmdList parts => PyStr.join "." parts
  end.

Definition str_error (e : exn) : string :=
  match e with
  | NoSuchCommandError p => "No such command: " +:+ PyStr.join "." p
  | ProtectedCommandError p => PyStr.join "." p +:+ " is protected"
  | CommandError c => "Command " +:+ str_command c +:+ " failed"
  | UnboundLocalError n | AttributeError n | OtherError n | BaseOnly n => n
  | TypeError => EmptyString
  end.

(** Modelled from the spec: [helpers.msg(client, dest, text)] is missing
    here; it is the send-message collaborator, which emits one
    [PRIVMSG dest :text] line. *)
Definition helpers_msg (dest text : string) (w : world) : world :=
  emit (Privmsg dest text) w.

(** Modelled from the spec: [parse_nick] of [.oyoyo.parse] is missing here;
    its first component is the sender's nick, the part of the prefix before
    the ["!"]. *)
Definition parse_nick (prefix : string) : string :=
  match PyStr.split1 "!"%char prefix with
  | n :: _ => n
  | [] => prefix
  end.

(** ** CommandHandler.run and the fallback *)

Definition logging (lvl : log_level) (text : log_text) (w : world) : world :=
  emit (Logged lvl text) w.

(** [__unhandled__]: the default handler only logs the command. *)
Definition __unhandled__ (cmd : command_input) (args : list string)
    (w : world) : world :=
  logging DEBUG (UnhandledCommand cmd args) w.

(** ['f %s' % f], the text of the debug record written once the command is
    resolved.  A tuple on the right of [%] is taken as the list of
    arguments, so every tuple but a one-item one fails to fill the single
    [%s] and raises [TypeError]. *)
Definition percent_s (f : value) : result unit :=
  match cls_of f with
  | ClsTuple n => if (n =? 1)%nat then Return () else Raise TypeError
  | _ => Return ()
  end.

(** [await f(self.client, *args)]: calling what is not callable raises
    [TypeError]. *)
Definition invoke (f : value) (args : list string) (w : world)
    : world * result unit :=
  match cls_of f, call_of f with
  | (ClsNone | ClsTuple _), _ => (w, Raise TypeError)
  | _, Some body => body args w
  | _, None => (w, Raise TypeError)
  end.

(** The first [try] catches [NoSuchCommandError] only; the debug record of
    the resolved value is built outside both [try] blocks; the second
    [try] catches what derives from [Exception]. *)
Definition run (self : value) (command : command_input) (args : list string)
    (w : world) : world * result unit :=
  let w := logging DEBUG (ProcessCommand command args) w in
  let w := logging INFO (ProcessCommand command args) w in
  match get self command with
  | Raise (NoSuchCommandError _) => (__unhandled__ command args w, Return ())
  | Raise e => (w, Raise e)
  | Return f =>
      match percent_s f with
      | Raise e => (w, Raise e)
      | Return _ =>
          let w := logging DEBUG ResolvedTo w in
          match invoke f args w with
          | (w, Return _) => (w, Return ())
          | (w, Raise e) =>
              if is_Exception e then
                let w := logging ERROR (CommandRaised e) w in
                let w := logging ERROR Traceback w in
                (w, Raise (CommandError command))
              else (w, Raise e)
          end
      end
  end.

(** ** DefaultBotCommandHandler.getVisibleCommands *)

(** The [test] lambda: sub-handler nodes, bound methods and functions. *)
Definition test (x : value) : bool :=
  match cls_of x with
  | ClsCommandHandler | ClsMethod | ClsFunction => true
  | _ => false
  end.

Definition name_le (a b : string * value) : Prop := String.leb a.1 b.1.

#[export] Instance name_le_dec a b : Decision (name_le a b) :=
  Is_true_dec (String.leb a.1 b.1).

(** [inspect.getmembers(obj, predicate)]: the attributes that satisfy the
    predicate, sorted by name. *)
Definition getmembers (obj : value) (predicate : value -> bool)
    : list (string * value) :=
  merge_sort name_le
    (filter (λ kv, Is_true (predicate kv.2)) (map_to_list (attrs_of obj))).

(** The list comprehension over the members, in order; [getattr(obj, m)] is
    evaluated only for names without a leading underscore and raises
    [AttributeError] when [obj] lacks the name. *)
Fixpoint visible_names (obj : value) (members : list (string * value))
    : result (list string) :=
  match members with
  | [] => Return []
  | (m, _) :: rest =>
      if PyStr.startswith m "_" then visible_names obj rest
      else
        match getattr obj m with
        | None => Raise (AttributeError m)
        | Some v =>
            names ← visible_names obj rest;
            Return (if hasattr v "protected" then names else m :: names)
        end
  end.

(** [obj] is the argument as received, [PyNone] when the caller gave none:
    the members come from [obj or self], the protection flags are read from
    [obj]. *)
Definition getVisibleCommands (self : value) (obj : value)
    : result (list string) :=
  let members := getmembers (if truthy obj then obj else self) test in
  visible_names obj members.

(** ** BotCommandHandler.tryBotCommand *)

(** The test at the head of [tryBotCommand]: for a message meant for the
    bot, the destination of replies and the text that holds the command
    line. *)
Definition addressed (nick prefix dest msg : string)
    : option (string * string) :=
  if String.eqb dest nick then Some (parse_nick prefix, msg)
  else if PyStr.startswith msg nick then
    Some (dest, PyStr.slice_from (String.length nick + 1) msg)
  else None.

Definition tryBotCommand (command_handler : value)
    (prefix dest msg : string) (w : world) : world * result bool :=
  let w := logging DEBUG (TryBotCommand prefix dest msg) w in
  match addressed (nick w) prefix dest msg with
  | None => (w, Return false)
  | Some (dest, msg) =>
      let msg := PyStr.strip msg in
      let parts := PyStr.split1 " "%char msg in
      let command := hd EmptyString parts in
      let arg := tl parts in
      match run command_handler (CmdStr command) (prefix :: dest :: arg) w with
      | (w, Return _) => (w, Return true)
      | (w, Raise e) =>
          if is_CommandError e then
            (helpers_msg dest (str_error e) w, Return true)
          else (w, Raise e)
      end
  end.

(** [privmsg] just awaits [tryBotCommand] and drops its answer. *)
Definition privmsg (command_handler : value) (prefix dest msg : string)
    (w : world) : world * result unit :=
  match tryBotCommand command_handler prefix dest msg w with
  | (w, Return _) => (w, Return ())
  | (w, Raise e) => (w, Raise e)
  end.

(** ** A sample command tree

    <<
    class Admin(CommandHandler):
        async def ban(self, client, prefix, dest, *who):
            await helpers.msg(client, dest, "banned")

    class Tools(object):
        async def version(self, client, prefix, dest, *rest):
            await helpers.msg(client, dest, "1.0")

    class Root(CommandHandler):
        def __init__(self, client):
            CommandHandler.__init__(self, client)
            self.admin = Admin(client)
            self.tools = Tools()
        async def hello(self, client, prefix, dest, *rest):
            await helpers.msg(client, dest, "hello")
        async def crash(self, client, prefix, dest, *rest):
            raise ValueError("boom")
        @protected
        async def shutdown(self, client, prefix, dest, *rest):
            raise SystemError("down")

    class Bot(Root, DefaultBotCommandHandler):
        pass
    >>

    Attribute names with a leading underscore are left out of the
    dictionaries: every code path of the module discards such a name before
    it looks the name up.  The attributes of the client object, which is
    defined outside this file, are not listed either. *)

Module Sample.

Definition method (body : behaviour) : value := Obj ClsMethod ∅ (Some body).

(** A command that answers [text] to the destination it was given. *)
Definition reply (text : string) : behaviour := λ args w,
  match args with
  | _ :: dest :: _ => (helpers_msg dest text w, Return ())
  | _ => (w, Raise TypeError)
  end.

Definition raises (e : exn) : behaviour := λ _ w, (w, Raise e).

(** [get], [run] and [getVisibleCommands] are protected, so [run] never
    calls them; called with the arguments [run] passes, they would end in
    a [TypeError]. *)
Definition CommandHandler_members : gmap string value :=
  {[ "client" := Obj ClsObject ∅ None;
     "get" := protected (method (raises TypeError));
     "run" := protected (method (raises TypeError)) ]}.

Definition admin : value :=
  Obj ClsCommandHandler
    (<["ban" := method (reply "banned")]> CommandHandler_members) None.

Definition tools : value :=
  Obj ClsObject {[ "version" := method (reply "1.0") ]} None.

Definition Root_members : gmap string value :=
  <["admin" := admin]> (
  <["tools" := tools]> (
  <["hello" := method (reply "hello")]> (
  <["crash" := method (raises (OtherError "boom"))]> (
  <["shutdown" := protected (method (raises (OtherError "down")))]>
  CommandHandler_members)))).

Definition root : value := Obj ClsCommandHandler Root_members None.

(** The same vocabulary on a [DefaultBotCommandHandler]; what its [help]
    command does when called plays no part in listing the members. *)
Definition bot (help : behaviour) : value :=
  Obj ClsCommandHandler
    (<["getVisibleCommands" := protected (method (raises TypeError))]> (
     <["help" := method help]> Root_members)) None.

Definition quiet : world := World "bot" [].

(** A second tree, with a command that ends the process and an attribute
    that is a tuple:
    <<
    class Daemon(CommandHandler):
        aliases = ("stop", "halt")
        async def quit(self, client, prefix, dest, *rest):
            raise SystemExit(0)
    >>
    The two methods of a tuple are built-in ones, which are neither bound
    methods nor functions to [inspect]; called with the arguments [run]
    passes, they end in a [TypeError]. *)
Definition aliases : value :=
  Obj (ClsTuple 2)
    {[ "count" := Obj ClsObject ∅ (Some (raises TypeError));
       "index" := Obj ClsObject ∅ (Some (raises TypeError)) ]} None.

Definition daemon : value :=
  Obj ClsCommandHandler
    (<["aliases" := aliases]> (
     <["quit" := method (raises (BaseOnly "SystemExit"))]>
     CommandHandler_members)) None.

End Sample.

(** ** Abbreviations used in the statements *)

(** The two records [run] logs before it resolves anything. *)
Definition announced (command : command_input) (args : list string)
    (w : world) : world :=
  logging INFO (ProcessCommand command args)
    (logging DEBUG (ProcessCommand command args) w).

(** The command name and the optional remainder cut out of a command
    line, as [tryBotCommand] computes them. *)
Definition command_of (line : string) : string :=
  hd EmptyString (PyStr.split1 " " (PyStr.strip line)).

Definition arg_of (line : string) : list string :=
  tl (PyStr.split1 " " (PyStr.strip line)).

(** The public entries of a member list: no leading underscore. *)
Definition public (kv : string * value) : Prop :=
  PyStr.startswith kv.1 "_" = false.

(** A text made of whitespace only. *)
Definition blank (s : string) : Prop :=
  Forall (λ c, PyStr.isspace c = true) (String.list_ascii_of_string s).

(** The [try]/[except CommandError] around [run] in [tryBotCommand]: an
    instance of [CommandError] is answered to [dest] and swallowed, and the
    answer of [tryBotCommand] is [True]. *)
Definition reported (dest : string) (r : world * result unit)
    : world * result bool :=
  match r with
  | (w, Return _) => (w, Return true)
  | (w, Raise e) =>
      if is_CommandError e then (helpers_msg dest (str_error e) w, Return true)
      else (w, Raise e)
  end.

(** What it takes for a name to be listed for a node. *)
Definition listable (obj : value) (m : string) : Prop :=
  ∃ v, getattr obj m = Some v ∧ test v = true
       ∧ PyStr.startswith m "_" = false ∧ hasattr v "protected" = false.

(** * Properties *)

(** ** Text primitives *)

Lemma split_not_empty sep s : PyStr.split sep s ≠ [].
Proof.
  destruct s as [|c s]; simpl; [done|].
  destruct (Ascii.eqb c sep); [done|].
  by destruct (PyStr.split sep s).
Qed.

Lemma split1_not_empty sep s : PyStr.split1 sep s ≠ [].
Proof.
  destruct s as [|c s]; simpl; [done|].
  destruct (Ascii.eqb c sep); [done|].
  by destruct (PyStr.split1 sep s).
Qed.

Example split_dotted : PyStr.split "." "admin.kick" = ["admin"; "kick"].
Proof. reflexivity. Qed.

Example split_empty_segments : PyStr.split "." "a..b." = ["a"; EmptyString; "b"; EmptyString].
Proof. reflexivity. Qed.

Example split1_keeps_rest : PyStr.split1 " " "say hello world" = ["say"; "hello world"].
Proof. reflexivity. Qed.

Example strip_both_ends : PyStr.strip "  help me  " = "help me".
Proof. reflexivity. Qed.

Example slice_past_end : PyStr.slice_from 4 "bot" = EmptyString.
Proof. reflexivity. Qed.

(** ** Resolution *)

Section Resolution.

Implicit Types (self p v : value) (path pre post : list string).

(** One turn of the loop when the segment resolves to an unprotected
    value: the call is handed to a sub-handler if segments remain,
    otherwise the cursor moves on. *)
Lemma get_loop_step orig p f cmd rest v :
  PyStr.startswith cmd "_" = false →
  getattr p cmd = Some v →
  hasattr v "protected" = false →
  get_loop orig p f (cmd :: rest) =
    if is_CommandHandler v && negb (bool_decide (rest = []))
    then get v (CmdList rest)
    else get_loop orig v (Some v) rest.
Proof. intros Hu Hg Hp. simpl. by rewrite Hu, Hg, Hp. Qed.

(** [return f.get(command_parts)]: the rest of the path is resolved by
    the sub-handler, as a call of its own. *)
Lemma get_delegates self cmd rest v :
  PyStr.startswith cmd "_" = false →
  getattr self cmd = Some v →
  hasattr v "protected" = false →
  is_CommandHandler v = true →
  rest ≠ [] →
  get self (CmdList (cmd :: rest)) = get v (CmdList rest).
Proof.
  intros Hu Hg Hp Hh Hrest. unfold get at 1. simpl normalize.
  rewrite (get_loop_step _ _ _ _ _ v) by done.
  by rewrite Hh, bool_decide_eq_false_2.
Qed.

(** A segment missing on a sub-handler is reported under the path that
    sub-handler was given, whatever came before it. *)
Lemma get_delegated_miss self cmd k v :
  PyStr.startswith cmd "_" = false →
  getattr self cmd = Some v →
  hasattr v "protected" = false →
  is_CommandHandler v = true →
  PyStr.startswith k "_" = false →
  getattr v k = None →
  get self (CmdList [cmd; k]) = Raise (NoSuchCommandError [k]).
Proof.
  intros Hu Hg Hp Hh Hk Hmiss.
  rewrite (get_delegates self cmd [k] v) by done.
  unfold get. simpl. by rewrite Hk, Hmiss.
Qed.

Lemma get_loop_open path : ∀ orig p f,
  open_path p path = true →
  path ≠ [] ∨ f = Some p →
  ∃ v, attr_chain p path = Some v ∧ get_loop orig p f path = Return v.
Proof.
  induction path as [|cmd rest IH]; intros orig p f Hopen Hstart.
  - destruct Hstart as [?| ->]; [done|]. by exists p.
  - simpl in Hopen. apply andb_true_iff in Hopen as [Hu Hopen].
    apply negb_true_iff in Hu.
    destruct (getattr p cmd) as [v|] eqn:Hg; [|done].
    apply andb_true_iff in Hopen as [Hp Hopen].
    apply negb_true_iff in Hp.
    cbn [attr_chain]. rewrite Hg. cbn [mbind option_bind].
    rewrite (get_loop_step _ _ _ _ _ v) by done.
    destruct (is_CommandHandler v && negb (bool_decide (rest = []))) eqn:Hd.
    + apply andb_true_iff in Hd as [_ Hne].
      apply negb_true_iff, bool_decide_eq_false in Hne.
      apply IH; auto.
    + apply IH; auto.
Qed.

(** A dotted text always has a first segment. *)
Lemma get_text_open self s :
  open_path self (PyStr.split "." s) = true →
  ∃ v, attr_chain self (PyStr.split "." s) = Some v
       ∧ get self (CmdStr s) = Return v.
Proof.
  intros Hopen. apply get_loop_open; [done|]. left. apply split_not_empty.
Qed.

Lemma get_loop_underscore seg post pre : ∀ orig p f,
  PyStr.startswith seg "_" = true →
  is_Some (attr_chain p pre) →
  ∃ q, get_loop orig p f (pre ++ seg :: post)
       = Raise (ProtectedCommandError q).
Proof.
  induction pre as [|cmd pre IH]; intros orig p f Hseg Hpre; simpl.
  - rewrite Hseg. by eexists.
  - destruct (PyStr.startswith cmd "_"); [by eexists|].
    cbn [attr_chain] in Hpre.
    destruct (getattr p cmd) as [v|]; [|by destruct Hpre].
    cbn [mbind option_bind] in Hpre.
    destruct (hasattr v "protected"); [by eexists|].
    destruct (is_CommandHandler v && _); by apply IH.
Qed.

(** Whatever [get] raises is one of three errors, and the unbound
    variable can only show for an empty sequence. *)
Lemma get_loop_raises path : ∀ orig p f e,
  get_loop orig p f path = Raise e →
  (∃ q, e = NoSuchCommandError q) ∨ (∃ q, e = ProtectedCommandError q)
  ∨ (e = UnboundLocalError "f" ∧ path = [] ∧ f = None).
Proof.
  induction path as [|cmd rest IH]; intros orig p f e; simpl.
  - destruct f; [done|]. intros [= <-]. by right; right.
  - destruct (PyStr.startswith cmd "_"); [intros [= <-]; right; left; by eexists|].
    destruct (getattr p cmd) as [v|]; [|intros [= <-]; left; by eexists].
    destruct (hasattr v "protected"); [intros [= <-]; right; left; by eexists|].
    destruct (is_CommandHandler v && negb (bool_decide (rest = []))) eqn:Hd;
      intros Hr; apply IH in Hr as [?|[?|(-> & -> & ?)]]; auto.
    + apply andb_true_iff in Hd as [_ Hne].
      apply negb_true_iff, bool_decide_eq_false in Hne. done.
    + done.
Qed.

Lemma get_raises self input e :
  get self input = Raise e →
  (∃ q, e = NoSuchCommandError q) ∨ (∃ q, e = ProtectedCommandError q)
  ∨ (e = UnboundLocalError "f" ∧ normalize input = []).
Proof.
  intros Hr. apply get_loop_raises in Hr as [?|[?|(-> & ? & _)]]; auto.
Qed.

Lemma get_text_raises_CommandError self s e :
  get self (CmdStr s) = Raise e → is_CommandError e = true.
Proof.
  intros Hr. apply get_raises in Hr as [[q ->]|[[q ->]|[_ Hn]]]; [done..|].
  by apply split_not_empty in Hn.
Qed.

End Resolution.

(** C9. Given the empty pre-split sequence, [get] never enters its loop and
    its final [return f] reads a variable that was never bound: it raises
    [UnboundLocalError], a [NameError], which is none of the errors of the
    command taxonomy. *)
Theorem get_empty_sequence_unbound (self : value) :
  get_loop [] self None [] = Raise (UnboundLocalError "f") ∧
  get self (CmdList []) = Raise (UnboundLocalError "f") ∧
  is_NameError (UnboundLocalError "f") = true ∧
  is_CommandError (UnboundLocalError "f") = false.
Proof. repeat split. Qed.

(** C5. For a command path (dotted text or sequence) with at least one
    segment, whose segments all lack a leading underscore, are reachable from
    the root and resolve to values without the protection flag, [get]
    returns exactly the value found by reading the nested attribute chain
    from the root. *)
Theorem get_reads_attribute_chain (root : value) (input : command_input) :
  normalize input ≠ [] →
  open_path root (normalize input) = true →
  ∃ v, attr_chain root (normalize input) = Some v ∧ get root input = Return v.
Proof.
  intros Hne Hopen. unfold get. apply get_loop_open; auto.
Qed.

Lemma get_reads_attribute_chain_witness :
  normalize (CmdStr "admin.ban") ≠ [] ∧
  open_path Sample.root (normalize (CmdStr "admin.ban")) = true ∧
  ∃ v, attr_chain Sample.root (normalize (CmdStr "admin.ban")) = Some v ∧
       get Sample.root (CmdStr "admin.ban") = Return v.
Proof.
  split; [done|]. split; [by vm_compute|].
  apply (get_reads_attribute_chain Sample.root (CmdStr "admin.ban"));
    [done | by vm_compute].
Defined.

(** The path [missing._secret] has a segment with a leading underscore, yet
    [get] on the sample root fails with [NoSuchCommandError]: the segment
    [missing] is looked up, and found absent, before the loop ever reaches
    [_secret]. *)
Lemma get_underscore_after_missing_segment :
  "_secret" ∈ normalize (CmdStr "missing._secret") ∧
  PyStr.startswith "_secret" "_" = true ∧
  get Sample.root (CmdStr "missing._secret")
    = Raise (NoSuchCommandError ["missing"; "_secret"]) ∧
  ¬ ∃ q, get Sample.root (CmdStr "missing._secret")
         = Raise (ProtectedCommandError q).
Proof.
  assert (get Sample.root (CmdStr "missing._secret")
          = Raise (NoSuchCommandError ["missing"; "_secret"])) as Hget
    by (by vm_compute).
  split; [vm_compute; set_solver|]. split; [done|]. split; [done|].
  intros [q Hq]. by rewrite Hget in Hq.
Qed.

(** C6, amended. When a segment of the path starts with an underscore and
    every segment before it names an attribute that exists along the chain
    from the root, [get] fails with [ProtectedCommandError]; whether the
    cursor node has an attribute of the underscore name plays no part, as
    the underscore is tested before that segment is looked up. *)
Theorem get_underscore_segment_protected (self : value)
    (input : command_input) (pre : list string) (seg : string)
    (post : list string) :
  normalize input = pre ++ seg :: post →
  PyStr.startswith seg "_" = true →
  is_Some (attr_chain self pre) →
  ∃ q, get self input = Raise (ProtectedCommandError q).
Proof.
  intros Hin Hseg Hpre. unfold get. rewrite Hin.
  by apply get_loop_underscore.
Qed.

Lemma get_underscore_segment_protected_witness :
  normalize (CmdStr "tools._version") = ["tools"] ++ "_version" :: [] ∧
  PyStr.startswith "_version" "_" = true ∧
  is_Some (attr_chain Sample.root ["tools"]) ∧
  ∃ q, get Sample.root (CmdStr "tools._version")
       = Raise (ProtectedCommandError q).
Proof.
  assert (is_Some (attr_chain Sample.root ["tools"])) as Htools
    by (vm_compute; by eexists).
  split; [reflexivity|]. split; [reflexivity|]. split; [exact Htools|].
  exact (get_underscore_segment_protected Sample.root (CmdStr "tools._version")
           ["tools"] "_version" [] eq_refl eq_refl Htools).
Defined.

(** In every case a path with an underscore segment is refused: [get]
    raises one of the two resolution errors and returns nothing. *)
Lemma get_underscore_segment_fails (self : value) (input : command_input)
    (seg : string) :
  seg ∈ normalize input →
  PyStr.startswith seg "_" = true →
  ∃ q, get self input = Raise (NoSuchCommandError q)
       ∨ get self input = Raise (ProtectedCommandError q).
Proof.
  intros Hin Hseg. unfold get.
  cut (∀ path orig p f, seg ∈ path →
        ∃ q, get_loop orig p f path = Raise (NoSuchCommandError q)
             ∨ get_loop orig p f path = Raise (ProtectedCommandError q));
    [by auto|].
  clear Hin. induction path as [|cmd rest IH]; intros orig p f Hin;
    [by apply elem_of_nil in Hin|].
  simpl. destruct (PyStr.startswith cmd "_") eqn:Hu; [by eexists; right|].
  destruct (getattr p cmd) as [v|]; [|by eexists; left].
  destruct (hasattr v "protected"); [by eexists; right|].
  apply elem_of_cons in Hin as [->|Hin]; [congruence|].
  destruct (is_CommandHandler v && _); by apply IH.
Qed.

(** C1. On the sample root, whose [admin] sub-handler has no [kick], the
    failed resolution of [admin.kick] reports only [kick]: the sub-handler
    was called with the remaining segments and raises with the path it was
    given.  Through [tools], which is not a handler, the same miss reports
    the whole path [tools.kick]. *)
Theorem get_delegated_error_reports_suffix :
  normalize (CmdStr "admin.kick") = ["admin"; "kick"] ∧
  get Sample.root (CmdStr "admin.kick") = Raise (NoSuchCommandError ["kick"]) ∧
  get Sample.root (CmdList ["admin"; "kick"])
    = get Sample.admin (CmdList ["kick"]) ∧
  str_error (NoSuchCommandError ["kick"]) = "No such command: kick" ∧
  get Sample.root (CmdStr "tools.kick")
    = Raise (NoSuchCommandError ["tools"; "kick"]).
Proof. repeat split; by vm_compute. Qed.

(** ** Execution *)

(** Three failures that leave [run] without being wrapped.  Asked to run
    the underscore name [_secret], [run] on the sample root lets the
    [ProtectedCommandError] of the resolution through as it is; no
    [CommandError] carrying the command name is raised in its place.  On
    the second tree, the [SystemExit] of [quit] passes the
    [except Exception], and the tuple [aliases] fails the debug record with
    a [TypeError] before anything is invoked. *)
Lemma run_protected_not_wrapped :
  get Sample.root (CmdStr "_secret")
    = Raise (ProtectedCommandError ["_secret"]) ∧
  snd (run Sample.root (CmdStr "_secret") ["alice!u@h"; "#chan"] Sample.quiet)
    = Raise (ProtectedCommandError ["_secret"]) ∧
  snd (run Sample.root (CmdStr "_secret") ["alice!u@h"; "#chan"] Sample.quiet)
    ≠ Raise (CommandError (CmdStr "_secret")) ∧
  snd (run Sample.daemon (CmdStr "quit") ["alice!u@h"; "#chan"] Sample.quiet)
    = Raise (BaseOnly "SystemExit") ∧
  run Sample.daemon (CmdStr "aliases") ["alice!u@h"; "#chan"] Sample.quiet
    = (announced (CmdStr "aliases") ["alice!u@h"; "#chan"] Sample.quiet,
       Raise TypeError).
Proof. repeat split; by vm_compute. Qed.

(** C3, amended. Once the resolved value has been written to the debug
    log, whatever the invocation raises that derives from [Exception]
    (calling a value that is not callable included) is logged and replaced
    by one [CommandError] carrying the command as [run] received it, which
    is raised to the caller.  A [ProtectedCommandError] raised by the
    resolution is not wrapped: it reaches the caller unchanged. *)
Theorem run_wraps_invocation_failures (self : value)
    (command : command_input) (args : list string) (w : world) :
  (∀ f w' e,
     get self command = Return f →
     percent_s f = Return () →
     invoke f args (logging DEBUG ResolvedTo (announced command args w))
       = (w', Raise e) →
     is_Exception e = true →
     run self command args w =
       (logging ERROR Traceback (logging ERROR (CommandRaised e) w'),
        Raise (CommandError command)))
  ∧
  (∀ path,
     get self command = Raise (ProtectedCommandError path) →
     run self command args w =
       (announced command args w, Raise (ProtectedCommandError path))).
Proof.
  split.
  - intros f w' e Hget Hfmt Hinv He. unfold run. rewrite Hget, Hfmt.
    fold (announced command args w). by rewrite Hinv, He.
  - intros path Hget. unfold run. by rewrite Hget.
Qed.

Lemma run_wraps_invocation_failures_witness :
  snd (run Sample.root (CmdStr "crash") ["alice!u@h"; "#chan"] Sample.quiet)
    = Raise (CommandError (CmdStr "crash")) ∧
  snd (run Sample.root (CmdStr "admin") ["alice!u@h"; "#chan"] Sample.quiet)
    = Raise (CommandError (CmdStr "admin")) ∧
  snd (run Sample.root (CmdStr "shutdown") ["alice!u@h"; "#chan"] Sample.quiet)
    = Raise (ProtectedCommandError ["shutdown"]).
Proof.
  pose proof (run_wraps_invocation_failures Sample.root (CmdStr "crash")
                ["alice!u@h"; "#chan"] Sample.quiet) as [Hbody _].
  pose proof (run_wraps_invocation_failures Sample.root (CmdStr "admin")
                ["alice!u@h"; "#chan"] Sample.quiet) as [Hnode _].
  pose proof (run_wraps_invocation_failures Sample.root (CmdStr "shutdown")
                ["alice!u@h"; "#chan"] Sample.quiet) as [_ Hprot].
  split; [|split].
  - by rewrite (Hbody _ _ (OtherError "boom") eq_refl eq_refl eq_refl eq_refl).
  - by rewrite (Hnode _ _ TypeError eq_refl eq_refl eq_refl eq_refl).
  - by rewrite (Hprot _ eq_refl).
Defined.

(** [NoSuchCommandError] never leaves [run], whatever the command does. *)
Lemma run_never_raises_NoSuchCommand (self : value) (command : command_input)
    (args : list string) (w w' : world) (path : list string) :
  run self command args w ≠ (w', Raise (NoSuchCommandError path)).
Proof.
  unfold run. destruct (get self command) as [f|e] eqn:Hget.
  - destruct (percent_s f) as [[]|e] eqn:Hfmt.
    + destruct (invoke f args _) as [w1 [[]|e]]; [done|].
      destruct e; done.
    + unfold percent_s in Hfmt. destruct (cls_of f); try done.
      destruct (_ =? _)%nat; [done|]. by injection Hfmt as <-.
  - destruct (get_raises _ _ _ Hget) as [[q ->]|[[q ->]|[-> _]]]; done.
Qed.

(** C4. When the resolution of the command fails with [NoSuchCommandError],
    [run] calls the fallback [__unhandled__] with the very command and
    arguments it received and returns normally; no [NoSuchCommandError]
    reaches the caller of [run]. *)
Theorem run_unresolved_falls_back (self : value) (command : command_input)
    (args : list string) (w : world) (path : list string) :
  get self command = Raise (NoSuchCommandError path) →
  run self command args w
    = (__unhandled__ command args (announced command args w), Return ()) ∧
  trace (fst (run self command args w))
    = trace (announced command args w)
      ++ [Logged DEBUG (UnhandledCommand command args)] ∧
  ∀ w' q, run self command args w ≠ (w', Raise (NoSuchCommandError q)).
Proof.
  intros Hget.
  assert (run self command args w
          = (__unhandled__ command args (announced command args w), Return ()))
    as Hrun by (unfold run; by rewrite Hget).
  split; [done|]. split; [by rewrite Hrun|].
  intros w' q. apply run_never_raises_NoSuchCommand.
Qed.

Lemma run_unresolved_falls_back_witness :
  get Sample.root (CmdStr "tools.kick")
    = Raise (NoSuchCommandError ["tools"; "kick"]) ∧
  run Sample.root (CmdStr "tools.kick") ["alice!u@h"; "#chan"; "bob"]
      Sample.quiet
    = (__unhandled__ (CmdStr "tools.kick") ["alice!u@h"; "#chan"; "bob"]
         (announced (CmdStr "tools.kick") ["alice!u@h"; "#chan"; "bob"]
            Sample.quiet),
       Return ()).
Proof.
  split; [by vm_compute|].
  apply (run_unresolved_falls_back Sample.root (CmdStr "tools.kick")
           ["alice!u@h"; "#chan"; "bob"] Sample.quiet ["tools"; "kick"]).
  by vm_compute.
Defined.

(** ** Routing of chat messages *)

Lemma tryBotCommand_addressed (handler : value) (prefix dest msg : string)
    (w : world) (dest' line : string) :
  addressed (nick w) prefix dest msg = Some (dest', line) →
  tryBotCommand handler prefix dest msg w =
    match run handler (CmdStr (command_of line))
            (prefix :: dest' :: arg_of line)
            (logging DEBUG (TryBotCommand prefix dest msg) w) with
    | (w1, Return _) => (w1, Return true)
    | (w1, Raise e) =>
        if is_CommandError e then
          (helpers_msg dest' (str_error e) w1, Return true)
        else (w1, Raise e)
    end.
Proof.
  intros Haddr. unfold tryBotCommand. cbn [logging emit nick].
  by rewrite Haddr.
Qed.

(** How [run] can fail on a command given as text: with an instance of
    [CommandError], with the [TypeError] of the debug record of a resolved
    tuple, or with what the invoked command raised outside [Exception]. *)
Lemma run_text_raises (self : value) (s : string)
    (args : list string) (w w' : world) (e : exn) :
  run self (CmdStr s) args w = (w', Raise e) →
  is_CommandError e = true
  ∨ ∃ f, get self (CmdStr s) = Return f ∧
      ((e = TypeError ∧ ∃ n, cls_of f = ClsTuple n ∧ n ≠ 1)
       ∨ (is_Exception e = false ∧
          invoke f args (logging DEBUG ResolvedTo (announced (CmdStr s) args w))
            = (w', Raise e))).
Proof.
  unfold run. fold (announced (CmdStr s) args w).
  destruct (get self (CmdStr s)) as [f|e0] eqn:Hget.
  - destruct (percent_s f) as [[]|e1] eqn:Hfmt.
    + destruct (invoke f args _) as [w1 [[]|e1]] eqn:Hinv; [done|].
      destruct (is_Exception e1) eqn:He1.
      * intros [= _ <-]. by left.
      * intros [= <- <-]. right. exists f. split; [done|]. by right.
    + intros [= _ <-]. right. exists f. split; [done|]. left.
      unfold percent_s in Hfmt. destruct (cls_of f) as [| | | |n| |]; try done.
      destruct (n =? 1)%nat eqn:Hn; [done|]. injection Hfmt as <-.
      split; [done|]. exists n. split; [done|]. by apply Nat.eqb_neq.
  - apply get_text_raises_CommandError in Hget.
    destruct e0; try done; intros [= _ <-]; by left.
Qed.

(** C7. For a message recognised as a bot command (addressed to the nick,
    or starting with it), when [run] raises a [CommandError],
    [tryBotCommand] sends the rendered error to the reply destination
    through the send-message collaborator, does not raise it again, and
    returns [True]. *)
Theorem tryBotCommand_reports_CommandError (handler : value)
    (prefix dest msg : string) (w : world) (dest' line : string)
    (w1 : world) (e : exn) :
  addressed (nick w) prefix dest msg = Some (dest', line) →
  run handler (CmdStr (command_of line)) (prefix :: dest' :: arg_of line)
      (logging DEBUG (TryBotCommand prefix dest msg) w) = (w1, Raise e) →
  is_CommandError e = true →
  tryBotCommand handler prefix dest msg w
    = (helpers_msg dest' (str_error e) w1, Return true) ∧
  trace (fst (tryBotCommand handler prefix dest msg w))
    = trace w1 ++ [Privmsg dest' (str_error e)].
Proof.
  intros Haddr Hrun He.
  rewrite (tryBotCommand_addressed _ _ _ _ _ _ _ Haddr), Hrun, He. done.
Qed.

Lemma tryBotCommand_reports_CommandError_witness :
  addressed (nick Sample.quiet) "alice!u@h" "#chan" "bot: crash"
    = Some ("#chan", " crash") ∧
  snd (run Sample.root (CmdStr (command_of " crash"))
         ("alice!u@h" :: "#chan" :: arg_of " crash")
         (logging DEBUG (TryBotCommand "alice!u@h" "#chan" "bot: crash")
            Sample.quiet))
    = Raise (CommandError (CmdStr "crash")) ∧
  tryBotCommand Sample.root "alice!u@h" "#chan" "bot: crash" Sample.quiet
    = (helpers_msg "#chan" "Command crash failed"
         (logging ERROR Traceback
            (logging ERROR (CommandRaised (OtherError "boom"))
               (logging DEBUG ResolvedTo
                  (announced (CmdStr "crash") ["alice!u@h"; "#chan"]
                     (logging DEBUG
                        (TryBotCommand "alice!u@h" "#chan" "bot: crash")
                        Sample.quiet))))),
       Return true).
Proof.
  split; [reflexivity|]. split; [by vm_compute|].
  apply (tryBotCommand_reports_CommandError Sample.root "alice!u@h" "#chan"
           "bot: crash" Sample.quiet "#chan" " crash" _
           (CommandError (CmdStr "crash")));
    by vm_compute.
Defined.

(** C8. A message whose destination is not the client's nick and whose
    text does not start with the nick makes [tryBotCommand] return [False];
    all it leaves behind is its own debug record: nothing is resolved, run
    or sent, whatever the command handler is. *)
Theorem tryBotCommand_ignores_unaddressed (handler : value)
    (prefix dest msg : string) (w : world) :
  dest ≠ nick w →
  PyStr.startswith msg (nick w) = false →
  tryBotCommand handler prefix dest msg w
    = (logging DEBUG (TryBotCommand prefix dest msg) w, Return false) ∧
  trace (fst (tryBotCommand handler prefix dest msg w))
    = trace w ++ [Logged DEBUG (TryBotCommand prefix dest msg)] ∧
  nick (fst (tryBotCommand handler prefix dest msg w)) = nick w.
Proof.
  intros Hdest Hmsg.
  assert (tryBotCommand handler prefix dest msg w
          = (logging DEBUG (TryBotCommand prefix dest msg) w, Return false))
    as Htry.
  { unfold tryBotCommand, addressed. cbn [logging emit nick].
    apply String.eqb_neq in Hdest. by rewrite Hdest, Hmsg. }
  by rewrite Htry.
Qed.

Lemma tryBotCommand_ignores_unaddressed_witness :
  "#chan" ≠ nick Sample.quiet ∧
  PyStr.startswith "hello there" (nick Sample.quiet) = false ∧
  tryBotCommand Sample.root "alice!u@h" "#chan" "hello there" Sample.quiet
    = (logging DEBUG (TryBotCommand "alice!u@h" "#chan" "hello there")
         Sample.quiet, Return false).
Proof.
  split; [done|]. split; [reflexivity|].
  apply (tryBotCommand_ignores_unaddressed Sample.root "alice!u@h" "#chan"
           "hello there" Sample.quiet); [done | reflexivity].
Defined.

(** A command that [get] does not resolve never makes [tryBotCommand]
    raise: the answer is [True]. *)
Lemma tryBotCommand_unresolved (handler : value) (prefix dest msg : string)
    (w : world) (dest' line : string) (e : exn) :
  addressed (nick w) prefix dest msg = Some (dest', line) →
  get handler (CmdStr (command_of line)) = Raise e →
  snd (tryBotCommand handler prefix dest msg w) = Return true.
Proof.
  intros Ha Hget. rewrite (tryBotCommand_addressed _ _ _ _ _ _ _ Ha).
  unfold run. rewrite Hget.
  pose proof (get_text_raises_CommandError _ _ _ Hget) as He.
  by destruct e.
Qed.

(** C10. With nick [bot], the channel message [botsrule now] only begins
    with the three letters of the nick, and still [tryBotCommand] takes it
    for a bot command: it cuts the four leading characters and runs the
    first word of what is left, [rule], with the remainder [now] as
    argument, whatever the command handler and the sender are.  It
    returns [True] when [run] returns, and also when [rule] does not
    resolve, as on the sample root. *)
Theorem tryBotCommand_nick_prefix_without_delimiter (handler : value)
    (prefix : string) (history : list event) :
  let w := World "bot" history in
  let w0 := logging DEBUG (TryBotCommand prefix "#chan" "botsrule now") w in
  addressed "bot" prefix "#chan" "botsrule now" = Some ("#chan", "rule now") ∧
  PyStr.slice_from (String.length "bot" + 1) "botsrule now" = "rule now" ∧
  tryBotCommand handler prefix "#chan" "botsrule now" w =
    reported "#chan"
      (run handler (CmdStr "rule") [prefix; "#chan"; "now"] w0) ∧
  (∀ w1, run handler (CmdStr "rule") [prefix; "#chan"; "now"] w0
           = (w1, Return ()) →
         tryBotCommand handler prefix "#chan" "botsrule now" w
           = (w1, Return true)) ∧
  (∀ e, get handler (CmdStr "rule") = Raise e →
        snd (tryBotCommand handler prefix "#chan" "botsrule now" w)
          = Return true) ∧
  snd (tryBotCommand Sample.root prefix "#chan" "botsrule now" w)
    = Return true.
Proof.
  intros w w0. split; [reflexivity|]. split; [reflexivity|].
  assert (∀ h, tryBotCommand h prefix "#chan" "botsrule now" w =
               reported "#chan"
                 (run h (CmdStr "rule") [prefix; "#chan"; "now"] w0)) as Htry.
  { intros h. exact (tryBotCommand_addressed h prefix "#chan" "botsrule now" w
                       "#chan" "rule now" eq_refl). }
  split; [apply Htry|]. split; [|split].
  - intros w1 Hrun. by rewrite Htry, Hrun.
  - intros e Hget.
    exact (tryBotCommand_unresolved handler prefix "#chan" "botsrule now" w
             "#chan" "rule now" e eq_refl Hget).
  - exact (tryBotCommand_unresolved Sample.root prefix "#chan" "botsrule now"
             w "#chan" "rule now" (NoSuchCommandError ["rule"]) eq_refl
             eq_refl).
Qed.

(** ** Listing the visible commands *)

Section Visibility.

Implicit Types (self obj v : value) (members : list (string * value)).

Lemma elem_of_getmembers obj m v :
  (m, v) ∈ getmembers obj test ↔ getattr obj m = Some v ∧ test v = true.
Proof.
  unfold getmembers. rewrite merge_sort_Permutation.
  rewrite list_elem_of_filter, elem_of_map_to_list. simpl.
  rewrite Is_true_true. unfold getattr. tauto.
Qed.

(** Read from [None], the first public member already raises. *)
Lemma visible_names_None members :
  visible_names PyNone members =
    match filter public members with
    | [] => Return []
    | (m, _) :: _ => Raise (AttributeError m)
    end.
Proof.
  induction members as [|[m v] members IH]; [done|].
  simpl. rewrite filter_cons.
  destruct (decide (public (m, v))) as [Hp|Hp]; unfold public in Hp;
    simpl in Hp.
  - by rewrite Hp.
  - apply not_false_is_true in Hp. by rewrite Hp.
Qed.

(** Read from the object the members were taken from, every lookup
    succeeds and the names are filtered as intended. *)
Lemma visible_names_own obj members :
  (∀ m v, (m, v) ∈ members → getattr obj m = Some v) →
  visible_names obj members =
    Return (fst <$> filter
              (λ kv, public kv ∧ hasattr kv.2 "protected" = false) members).
Proof.
  induction members as [|[m v] members IH]; intros Hown; [done|].
  simpl. rewrite IH by (intros; apply Hown; by right).
  rewrite (Hown m v) by left. rewrite filter_cons.
  destruct (decide (public (m, v) ∧ hasattr (m, v).2 "protected" = false))
    as [[Hu Hp]|Hno]; unfold public in *; simpl in *.
  - by rewrite Hu, Hp.
  - destruct (PyStr.startswith m "_"); [done|].
    destruct (hasattr v "protected"); [done|]. by destruct Hno.
Qed.

Lemma getVisibleCommands_of_node self obj :
  truthy obj = true →
  getVisibleCommands self obj =
    Return (fst <$> filter
              (λ kv, public kv ∧ hasattr kv.2 "protected" = false)
              (getmembers obj test)).
Proof.
  intros Ht. unfold getVisibleCommands. rewrite Ht.
  apply visible_names_own. intros m v. rewrite elem_of_getmembers. tauto.
Qed.

Lemma getVisibleCommands_no_argument self :
  getVisibleCommands self PyNone =
    match filter public (getmembers self test) with
    | [] => Return []
    | (m, _) :: _ => Raise (AttributeError m)
    end.
Proof. apply visible_names_None. Qed.

(** A node with a public command or sub-handler cannot be listed without
    an argument. *)
Lemma getVisibleCommands_no_argument_raises self m v :
  getattr self m = Some v → test v = true →
  PyStr.startswith m "_" = false →
  ∃ m', getVisibleCommands self PyNone = Raise (AttributeError m').
Proof.
  intros Hg Ht Hm. rewrite getVisibleCommands_no_argument.
  assert ((m, v) ∈ filter public (getmembers self test)) as Hin.
  { apply list_elem_of_filter. split; [done|]. by apply elem_of_getmembers. }
  destruct (filter public (getmembers self test)) as [|[m' ?] ?];
    [by apply elem_of_nil in Hin | by eexists].
Qed.

End Visibility.

(** C2. Called without an argument on the sample bot, whose members
    include the public commands [admin], [crash], [hello] and [help],
    [getVisibleCommands] raises [AttributeError]: the members are taken from
    the receiver, but each name is then looked up on the argument itself,
    which is [None].  Given the same node explicitly it returns the list
    the claim describes. *)
Theorem getVisibleCommands_default_argument_raises (help : behaviour) :
  getVisibleCommands (Sample.bot help) PyNone
    = Raise (AttributeError "admin") ∧
  getVisibleCommands (Sample.bot help) (Sample.bot help)
    = Return ["admin"; "crash"; "hello"; "help"].
Proof. split; by vm_compute. Qed.

(** * Further properties of the module *)

(** ** More on resolution *)

Section ResolutionMore.

Implicit Types (self p c v : value) (path pre rest : list string).

(** What the loop returns has been reached by an open walk from the
    cursor. *)
Lemma get_loop_returns path : ∀ orig p f v,
  f = None ∨ f = Some p →
  get_loop orig p f path = Return v →
  open_path p path = true ∧ attr_chain p path = Some v
  ∧ (f = None → path ≠ []).
Proof.
  induction path as [|cmd rest IH]; intros orig p f v Hf; simpl.
  - destruct Hf as [->| ->]; [done|]. intros [= ->]. done.
  - destruct (PyStr.startswith cmd "_"); [done|].
    destruct (getattr p cmd) as [x|]; [|done].
    destruct (hasattr x "protected"); [done|]. simpl.
    destruct (is_CommandHandler x && _); intros Hr;
      apply IH in Hr as (? & ? & _); auto.
Qed.

(** After an open prefix that ends on a sub-handler, the loop is that
    sub-handler's own call on what is left. *)
Lemma get_loop_through_handler rest c pre : ∀ orig p f,
  pre ≠ [] → rest ≠ [] →
  open_path p pre = true →
  attr_chain p pre = Some c →
  is_CommandHandler c = true →
  get_loop orig p f (pre ++ rest) = get c (CmdList rest).
Proof.
  induction pre as [|cmd pre IH]; intros orig p f Hpre Hrest Hopen Hc Hh;
    [done|].
  simpl in Hopen. apply andb_true_iff in Hopen as [Hu Hopen].
  apply negb_true_iff in Hu.
  cbn [attr_chain] in Hc.
  destruct (getattr p cmd) as [x|] eqn:Hg; [|done].
  cbn [mbind option_bind] in Hc.
  apply andb_true_iff in Hopen as [Hp Hopen]. apply negb_true_iff in Hp.
  rewrite <- app_comm_cons, (get_loop_step _ _ _ _ _ x) by done.
  destruct pre as [|cmd' pre].
  - simpl in Hc. injection Hc as ->. simpl.
    by rewrite Hh, bool_decide_eq_false_2.
  - destruct (is_CommandHandler x && _); [unfold get; simpl normalize|];
      by apply IH.
Qed.

(** After an open prefix the loop stands at the end of the chain. *)
Lemma get_loop_after_open rest c pre : ∀ orig p f,
  rest ≠ [] →
  open_path p pre = true →
  attr_chain p pre = Some c →
  ∃ orig' f', get_loop orig p f (pre ++ rest) = get_loop orig' c f' rest.
Proof.
  induction pre as [|cmd pre IH]; intros orig p f Hrest Hopen Hc.
  - injection Hc as ->. by exists orig, f.
  - simpl in Hopen. apply andb_true_iff in Hopen as [Hu Hopen].
    apply negb_true_iff in Hu.
    cbn [attr_chain] in Hc.
    destruct (getattr p cmd) as [x|] eqn:Hg; [|done].
    cbn [mbind option_bind] in Hc.
    apply andb_true_iff in Hopen as [Hp Hopen]. apply negb_true_iff in Hp.
    rewrite <- app_comm_cons, (get_loop_step _ _ _ _ _ x) by done.
    destruct (is_CommandHandler x && _); [unfold get; simpl normalize|];
      by apply IH.
Qed.

(** The path carried by a resolution error is a tail of the path the
    running invocation was given. *)
Lemma get_loop_error_suffix path : ∀ orig p f e q,
  path `suffix_of` orig →
  get_loop orig p f path = Raise e →
  e = NoSuchCommandError q ∨ e = ProtectedCommandError q →
  q `suffix_of` orig ∧ q ≠ [].
Proof.
  induction path as [|cmd rest IH]; intros orig p f e q Hsuf; simpl.
  - destruct f; [done|]. intros [= <-] [?|?]; done.
  - assert (orig ≠ []) as Hne.
    { intros ->. by apply suffix_nil_inv in Hsuf. }
    assert (rest `suffix_of` orig) as Hrest.
    { etrans; [|exact Hsuf]. by apply suffix_cons_r. }
    destruct (PyStr.startswith cmd "_");
      [intros [= <-] [[=]|[= <-]]; done|].
    destruct (getattr p cmd) as [x|];
      [|intros [= <-] [[= <-]|[=]]; done].
    destruct (hasattr x "protected");
      [intros [= <-] [[=]|[= <-]]; done|].
    destruct (is_CommandHandler x && _); intros Hr He.
    + destruct (IH rest x None e q) as [? ?]; [done..|].
      split; [by etrans|done].
    + by apply (IH orig x (Some x) e q).
Qed.

(** Without a sub-handler on the way, errors carry the path the
    invocation was given. *)
Lemma get_loop_error_whole path : ∀ orig p f e,
  (∀ pre rest c, path = pre ++ rest → pre ≠ [] → rest ≠ [] →
     attr_chain p pre = Some c → is_CommandHandler c = false) →
  get_loop orig p f path = Raise e →
  is_CommandError e = true →
  e = NoSuchCommandError orig ∨ e = ProtectedCommandError orig.
Proof.
  induction path as [|cmd rest IH]; intros orig p f e Hflat; simpl.
  - destruct f; [done|]. by intros [= <-].
  - destruct (PyStr.startswith cmd "_"); [intros [= <-]; auto|].
    destruct (getattr p cmd) as [x|] eqn:Hg; [|intros [= <-]; auto].
    destruct (hasattr x "protected"); [intros [= <-]; auto|].
    destruct (decide (rest = [])) as [->|Hrest].
    + rewrite andb_false_r. simpl. by intros [= <-].
    + rewrite (Hflat [cmd] rest x); [| done | done | done |].
      2:{ simpl. by rewrite Hg. }
      simpl. apply IH. intros pre rest' c -> Hpre Hrest' Hc.
      apply (Hflat (cmd :: pre) rest' c); [done..|].
      simpl. by rewrite Hg.
Qed.

End ResolutionMore.

(** X1. Whatever [get] returns has been reached by the rules: the path has
    at least one segment, no segment has a leading underscore, every
    segment names an attribute of the node reached so far, none of these
    attributes carries the protection flag, and the value returned is the
    one at the end of the attribute chain. *)
Theorem get_returns_open_chain (self : value) (input : command_input)
    (v : value) :
  get self input = Return v →
  normalize input ≠ [] ∧
  open_path self (normalize input) = true ∧
  attr_chain self (normalize input) = Some v.
Proof.
  intros Hget. apply get_loop_returns in Hget as (? & ? & ?); auto.
Qed.

Lemma get_returns_open_chain_witness :
  get Sample.root (CmdStr "tools.version")
    = Return (Sample.method (Sample.reply "1.0")) ∧
  open_path Sample.root ["tools"; "version"] = true ∧
  attr_chain Sample.root ["tools"; "version"]
    = Some (Sample.method (Sample.reply "1.0")).
Proof.
  assert (get Sample.root (CmdStr "tools.version")
          = Return (Sample.method (Sample.reply "1.0"))) as Hget
    by (by vm_compute).
  split; [exact Hget|].
  exact (proj2 (get_returns_open_chain Sample.root (CmdStr "tools.version")
                  _ Hget)).
Defined.

(** X2. When the walk reaches, through open segments, a segment whose
    attribute carries the protection flag, [get] raises
    [ProtectedCommandError], whether or not segments follow. *)
Theorem get_flagged_member_protected (self : value) (input : command_input)
    (pre : list string) (seg : string) (post : list string) (c v : value) :
  normalize input = pre ++ seg :: post →
  open_path self pre = true →
  attr_chain self pre = Some c →
  PyStr.startswith seg "_" = false →
  getattr c seg = Some v →
  hasattr v "protected" = true →
  ∃ q, get self input = Raise (ProtectedCommandError q).
Proof.
  intros Hin Hopen Hc Hu Hg Hp. unfold get. rewrite Hin.
  destruct (get_loop_after_open (seg :: post) c pre (pre ++ seg :: post)
              self None) as (orig' & f' & ->); [done..|].
  simpl. rewrite Hu, Hg, Hp. by eexists.
Qed.

Lemma get_flagged_member_protected_witness :
  ∃ q, get Sample.root (CmdStr "admin.run.now")
       = Raise (ProtectedCommandError q).
Proof.
  apply (get_flagged_member_protected Sample.root (CmdStr "admin.run.now")
           ["admin"] "run" ["now"] Sample.admin
           (protected (Sample.method (Sample.raises TypeError))));
    by vm_compute.
Defined.

(** X3. When the walk reaches, through open segments, a segment without a
    leading underscore that names no attribute of the node reached, [get]
    raises [NoSuchCommandError], whatever follows that segment. *)
Theorem get_missing_member_no_such (self : value) (input : command_input)
    (pre : list string) (seg : string) (post : list string) (c : value) :
  normalize input = pre ++ seg :: post →
  open_path self pre = true →
  attr_chain self pre = Some c →
  PyStr.startswith seg "_" = false →
  getattr c seg = None →
  ∃ q, get self input = Raise (NoSuchCommandError q).
Proof.
  intros Hin Hopen Hc Hu Hg. unfold get. rewrite Hin.
  destruct (get_loop_after_open (seg :: post) c pre (pre ++ seg :: post)
              self None) as (orig' & f' & ->); [done..|].
  simpl. rewrite Hu, Hg. by eexists.
Qed.

Lemma get_missing_member_no_such_witness :
  ∃ q, get Sample.root (CmdStr "tools.kick._now")
       = Raise (NoSuchCommandError q).
Proof.
  apply (get_missing_member_no_such Sample.root (CmdStr "tools.kick._now")
           ["tools"] "kick" ["_now"] Sample.tools);
    by vm_compute.
Defined.

(** X4. The path carried by a [NoSuchCommandError] or
    [ProtectedCommandError] of [get] is never empty and is always a tail of
    the path that was asked for. *)
Theorem get_error_path_is_tail (self : value) (input : command_input)
    (e : exn) (q : list string) :
  get self input = Raise e →
  e = NoSuchCommandError q ∨ e = ProtectedCommandError q →
  q `suffix_of` normalize input ∧ q ≠ [].
Proof.
  intros Hget He. by apply (get_loop_error_suffix _ _ _ _ _ _ (reflexivity _) Hget).
Qed.

Lemma get_error_path_is_tail_witness :
  ["_purge"] `suffix_of` normalize (CmdStr "admin._purge") ∧ ["_purge"] ≠ [].
Proof.
  apply (get_error_path_is_tail Sample.root (CmdStr "admin._purge")
           (ProtectedCommandError ["_purge"]) ["_purge"]);
    [by vm_compute | by right].
Defined.

(** X5. When no node before the last segment of the path is a
    [CommandHandler], the error of a failed resolution carries the whole
    path as it was asked for. *)
Theorem get_error_whole_path_without_subhandler (self : value)
    (input : command_input) (e : exn) :
  (∀ pre rest c, normalize input = pre ++ rest → pre ≠ [] → rest ≠ [] →
     attr_chain self pre = Some c → is_CommandHandler c = false) →
  get self input = Raise e →
  is_CommandError e = true →
  e = NoSuchCommandError (normalize input)
  ∨ e = ProtectedCommandError (normalize input).
Proof.
  intros Hflat Hget He. by apply (get_loop_error_whole _ _ _ _ _ Hflat Hget).
Qed.

Lemma get_error_whole_path_without_subhandler_witness :
  NoSuchCommandError ["tools"; "kick"]
    = NoSuchCommandError (normalize (CmdStr "tools.kick"))
  ∨ NoSuchCommandError ["tools"; "kick"]
    = ProtectedCommandError (normalize (CmdStr "tools.kick")).
Proof.
  apply (get_error_whole_path_without_subhandler Sample.root
           (CmdStr "tools.kick") (NoSuchCommandError ["tools"; "kick"]));
    [| by vm_compute | reflexivity].
  intros pre rest c Hsplit Hpre Hrest Hc.
  destruct pre as [|a [|b pre]]; [done| |].
  - injection Hsplit as <- _. vm_compute in Hc. by injection Hc as <-.
  - injection Hsplit as _ Hsplit. destruct pre, rest; done.
Defined.

(** X6. Once an open prefix of the path has led to a [CommandHandler] and
    segments remain, [get] is that sub-handler's [get] on the remaining
    segments: resolution composes along the tree. *)
Theorem get_continues_in_subhandler (self : value) (input : command_input)
    (pre rest : list string) (c : value) :
  normalize input = pre ++ rest →
  pre ≠ [] → rest ≠ [] →
  open_path self pre = true →
  attr_chain self pre = Some c →
  is_CommandHandler c = true →
  get self input = get c (CmdList rest).
Proof.
  intros Hin Hpre Hrest Hopen Hc Hh. unfold get at 1. rewrite Hin.
  by apply get_loop_through_handler.
Qed.

Lemma get_continues_in_subhandler_witness :
  get Sample.root (CmdStr "admin.ban") = get Sample.admin (CmdList ["ban"]).
Proof.
  apply (get_continues_in_subhandler Sample.root (CmdStr "admin.ban")
           ["admin"] ["ban"] Sample.admin);
    by vm_compute.
Defined.

(** ** More on execution *)

(** X7. A member that went through the decorator [protected] cannot be
    reached by name: [get] refuses it with [ProtectedCommandError] and [run]
    passes that error on without invoking anything, so that all [run] leaves
    behind is its two log records. *)
Theorem run_refuses_protected_member (self : value) (input : command_input)
    (name : string) (f : value) (args : list string) (w : world) :
  normalize input = [name] →
  PyStr.startswith name "_" = false →
  getattr self name = Some (protected f) →
  get self input = Raise (ProtectedCommandError [name]) ∧
  run self input args w
    = (announced input args w, Raise (ProtectedCommandError [name])).
Proof.
  intros Hin Hu Hg.
  assert (get self input = Raise (ProtectedCommandError [name])) as Hget.
  { unfold get. rewrite Hin. simpl. rewrite Hu, Hg.
    assert (hasattr (protected f) "protected" = true) as ->; [|done].
    apply bool_decide_eq_true. unfold getattr, protected. simpl.
    rewrite lookup_insert_eq. by eexists. }
  split; [done|]. unfold run. by rewrite Hget.
Qed.

Lemma run_refuses_protected_member_witness :
  run Sample.root (CmdStr "shutdown") ["alice!u@h"; "#chan"] Sample.quiet
    = (announced (CmdStr "shutdown") ["alice!u@h"; "#chan"] Sample.quiet,
       Raise (ProtectedCommandError ["shutdown"])).
Proof.
  apply (run_refuses_protected_member Sample.root (CmdStr "shutdown")
           "shutdown" (Sample.method (Sample.raises (OtherError "down"))));
    by vm_compute.
Defined.

(** X8. The errors that can leave [run] are five: a [CommandError]
    carrying the command as [run] received it, raised in place of what the
    invoked command raised within [Exception]; the
    [ProtectedCommandError] of the resolution; the [UnboundLocalError] of
    an empty sequence; what the invoked command raised outside
    [Exception], unchanged; and the [TypeError] of the debug record when
    the resolved value is a tuple of other than one item.  Nothing that a
    command raises within [Exception] leaves [run] as it is. *)
Theorem run_raises_only (self : value) (command : command_input)
    (args : list string) (w w' : world) (e : exn) :
  run self command args w = (w', Raise e) →
  let w0 := logging DEBUG ResolvedTo (announced command args w) in
  (e = CommandError command ∧
   ∃ f w1 e1, get self command = Return f ∧
              invoke f args w0 = (w1, Raise e1) ∧ is_Exception e1 = true)
  ∨ (∃ q, e = ProtectedCommandError q
          ∧ get self command = Raise (ProtectedCommandError q)
          ∧ w' = announced command args w)
  ∨ (e = UnboundLocalError "f" ∧ normalize command = [])
  ∨ (is_Exception e = false ∧
     ∃ f, get self command = Return f ∧ invoke f args w0 = (w', Raise e))
  ∨ (e = TypeError ∧ w' = announced command args w ∧
     ∃ f n, get self command = Return f ∧ cls_of f = ClsTuple n ∧ n ≠ 1).
Proof.
  intros Hrun w0. revert Hrun.
  unfold run. fold (announced command args w).
  destruct (get self command) as [f|e0] eqn:Hget.
  - destruct (percent_s f) as [[]|e1] eqn:Hfmt.
    + fold w0. destruct (invoke f args w0) as [w1 [[]|e1]] eqn:Hinv; [done|].
      destruct (is_Exception e1) eqn:He1.
      * intros [= _ <-]. left. split; [done|]. by exists f, w1, e1.
      * intros [= <- <-]. do 3 right. left. split; [done|]. by exists f.
    + intros [= <- <-]. do 4 right.
      unfold percent_s in Hfmt. destruct (cls_of f) as [| | | |n| |] eqn:Hc;
        try done.
      destruct (n =? 1)%nat eqn:Hn; [done|]. injection Hfmt as <-.
      split; [done|]. split; [done|]. exists f, n.
      split; [done|]. split; [done|]. by apply Nat.eqb_neq.
  - destruct (get_raises _ _ _ Hget) as [[q ->]|[[q ->]|[-> Hn]]].
    + done.
    + intros [= <- <-]. right; left. by exists q.
    + intros [= _ <-]. by right; right; left.
Qed.

Lemma run_raises_only_witness :
  run Sample.daemon (CmdStr "quit") ["alice!u@h"; "#chan"] Sample.quiet
    = (logging DEBUG ResolvedTo
         (announced (CmdStr "quit") ["alice!u@h"; "#chan"] Sample.quiet),
       Raise (BaseOnly "SystemExit")) ∧
  ((BaseOnly "SystemExit" = CommandError (CmdStr "quit") ∧
    ∃ f w1 e1, get Sample.daemon (CmdStr "quit") = Return f ∧
      invoke f ["alice!u@h"; "#chan"]
        (logging DEBUG ResolvedTo
           (announced (CmdStr "quit") ["alice!u@h"; "#chan"] Sample.quiet))
        = (w1, Raise e1) ∧ is_Exception e1 = true)
   ∨ (∃ q, BaseOnly "SystemExit" = ProtectedCommandError q
           ∧ get Sample.daemon (CmdStr "quit")
             = Raise (ProtectedCommandError q)
           ∧ logging DEBUG ResolvedTo
               (announced (CmdStr "quit") ["alice!u@h"; "#chan"] Sample.quiet)
             = announced (CmdStr "quit") ["alice!u@h"; "#chan"] Sample.quiet)
   ∨ (BaseOnly "SystemExit" = UnboundLocalError "f"
      ∧ normalize (CmdStr "quit") = [])
   ∨ (is_Exception (BaseOnly "SystemExit") = false ∧
      ∃ f, get Sample.daemon (CmdStr "quit") = Return f ∧
        invoke f ["alice!u@h"; "#chan"]
          (logging DEBUG ResolvedTo
             (announced (CmdStr "quit") ["alice!u@h"; "#chan"] Sample.quiet))
          = (logging DEBUG ResolvedTo
               (announced (CmdStr "quit") ["alice!u@h"; "#chan"]
                  Sample.quiet),
             Raise (BaseOnly "SystemExit")))
   ∨ (BaseOnly "SystemExit" = TypeError ∧
      logging DEBUG ResolvedTo
        (announced (CmdStr "quit") ["alice!u@h"; "#chan"] Sample.quiet)
        = announced (CmdStr "quit") ["alice!u@h"; "#chan"] Sample.quiet ∧
      ∃ f n, get Sample.daemon (CmdStr "quit") = Return f
             ∧ cls_of f = ClsTuple n ∧ n ≠ 1)).
Proof.
  assert (run Sample.daemon (CmdStr "quit") ["alice!u@h"; "#chan"]
            Sample.quiet
          = (logging DEBUG ResolvedTo
               (announced (CmdStr "quit") ["alice!u@h"; "#chan"]
                  Sample.quiet),
             Raise (BaseOnly "SystemExit"))) as Hrun by (by vm_compute).
  split; [exact Hrun|].
  exact (run_raises_only Sample.daemon (CmdStr "quit") ["alice!u@h"; "#chan"]
           Sample.quiet _ _ Hrun).
Defined.

(** X9. [run] returns normally in exactly two cases: the command did not
    resolve and the fallback was called, or the resolved command was
    invoked and returned.  In the second case the world is the one the
    command left. *)
Theorem run_returns_iff (self : value) (command : command_input)
    (args : list string) (w w' : world) :
  run self command args w = (w', Return ()) ↔
  (∃ q, get self command = Raise (NoSuchCommandError q)
        ∧ w' = __unhandled__ command args (announced command args w))
  ∨ (∃ f, get self command = Return f
          ∧ invoke f args (logging DEBUG ResolvedTo (announced command args w))
            = (w', Return ())).
Proof.
  unfold run. fold (announced command args w).
  destruct (get self command) as [f|e0] eqn:Hget.
  - destruct (percent_s f) as [[]|e1] eqn:Hfmt.
    + destruct (invoke f args _) as [w1 [[]|e1]] eqn:Hinv; split.
      * intros [= <-]. right. by exists f.
      * intros [(q & ? & _)|(f' & [= <-] & Hinv')]; [done|].
        rewrite Hinv in Hinv'. by injection Hinv' as ->.
      * by destruct (is_Exception e1).
      * intros [(q & ? & _)|(f' & [= <-] & Hinv')]; [done|].
        rewrite Hinv in Hinv'. done.
    + split; [done|].
      intros [(q & ? & _)|(f' & [= <-] & Hinv)]; [done|].
      unfold percent_s in Hfmt. unfold invoke in Hinv.
      by destruct (cls_of f).
  - split.
    + destruct e0; try done. intros [= <-]. left. by eexists.
    + intros [(q & [= ->] & ->)|(f & ? & _)]; done.
Qed.

(** ** More on text *)

Section Text.

Implicit Types (s n x : string) (c sep : ascii).

Lemma prefix_app n x : String.prefix n (n +:+ x) = true.
Proof.
  induction n as [|a n IH]; simpl; [by destruct x|].
  by destruct (ascii_dec a a).
Qed.

Lemma prefix_self n : String.prefix n n = true.
Proof.
  induction n as [|a n IH]; simpl; [done|]. by destruct (ascii_dec a a).
Qed.

Lemma slice_from_app n x k :
  PyStr.slice_from (String.length n + k) (n +:+ x) = PyStr.slice_from k x.
Proof. induction n as [|a n IH]; simpl; [done|]. exact IH. Qed.

Lemma slice_from_all n : PyStr.slice_from (String.length n + 1) n = EmptyString.
Proof. induction n as [|a n IH]; simpl; [done|]. exact IH. Qed.

Lemma isspace_space : PyStr.isspace " " = true.
Proof. reflexivity. Qed.

(** [split1] yields one or two parts, the first free of the separator, and
    joining the parts with the separator gives the text back. *)
Lemma split1_parts sep s :
  ∃ h t, PyStr.split1 sep s = h :: t ∧ (length t ≤ 1)%nat
         ∧ (sep ∉ String.list_ascii_of_string h)
         ∧ PyStr.join (String sep EmptyString) (h :: t) = s.
Proof.
  induction s as [|c s (h & t & Hs & Ht & Hh & Hj)]; simpl.
  - exists EmptyString, []. repeat split; [simpl; lia|]. apply not_elem_of_nil.
  - destruct (Ascii.eqb c sep) eqn:Hc.
    + apply Ascii.eqb_eq in Hc as ->.
      exists EmptyString, [s]. repeat split; [simpl; lia|]. apply not_elem_of_nil.
    + apply Ascii.eqb_neq in Hc. rewrite Hs.
      exists (String c h), t. repeat split; [done| |].
      * simpl. rewrite not_elem_of_cons. split; [congruence|done].
      * rewrite <- Hj. by destruct t.
Qed.

Lemma lstrip_empty s : PyStr.lstrip s = EmptyString ↔ blank s.
Proof.
  unfold blank. induction s as [|c s IH]; simpl; [by split; [constructor|]|].
  destruct (PyStr.isspace c) eqn:Hc.
  - rewrite IH. split; [by constructor|]. by inversion 1.
  - split; [done|]. inversion 1; congruence.
Qed.

Lemma lstrip_head s c r : PyStr.lstrip s = String c r → PyStr.isspace c = false.
Proof.
  induction s as [|a s IH]; simpl; [done|].
  destruct (PyStr.isspace a) eqn:Ha; [done|]. by intros [= <- _].
Qed.

Lemma rstrip_empty s : PyStr.rstrip s = EmptyString ↔ blank s.
Proof.
  unfold blank. induction s as [|c s IH]; simpl; [by split; [constructor|]|].
  destruct (PyStr.rstrip s) as [|a r].
  - destruct (PyStr.isspace c) eqn:Hc.
    + split; [|done]. intros _. constructor; [done|]. by apply IH.
    + split; [done|]. inversion 1; congruence.
  - split; [done|]. inversion 1 as [|? ? _ Hs]. by apply IH in Hs.
Qed.

Lemma rstrip_head c s : PyStr.rstrip (String c s) = EmptyString
                        ∨ ∃ r, PyStr.rstrip (String c s) = String c r.
Proof.
  simpl. destruct (PyStr.rstrip s); [destruct (PyStr.isspace c)|]; eauto.
Qed.

Lemma blank_lstrip s : blank (PyStr.lstrip s) ↔ blank s.
Proof.
  unfold blank. induction s as [|c s IH]; simpl; [done|].
  destruct (PyStr.isspace c) eqn:Hc; [|done].
  rewrite IH. split; [by constructor|]. by inversion 1.
Qed.

Lemma strip_empty s : PyStr.strip s = EmptyString ↔ blank s.
Proof. unfold PyStr.strip. by rewrite rstrip_empty, blank_lstrip. Qed.

Lemma strip_head s c r : PyStr.strip s = String c r → PyStr.isspace c = false.
Proof.
  unfold PyStr.strip. destruct (PyStr.lstrip s) as [|a l] eqn:Hl; [done|].
  apply lstrip_head in Hl.
  destruct (rstrip_head a l) as [->|[r' ->]]; [done|]. by intros [= <- _].
Qed.

End Text.

(** ** More on routing *)

Lemma tryBotCommand_reported (handler : value) (prefix dest msg : string)
    (w : world) (dest' line : string) :
  addressed (nick w) prefix dest msg = Some (dest', line) →
  tryBotCommand handler prefix dest msg w =
    reported dest'
      (run handler (CmdStr (command_of line)) (prefix :: dest' :: arg_of line)
         (logging DEBUG (TryBotCommand prefix dest msg) w)).
Proof. apply tryBotCommand_addressed. Qed.

Lemma addressed_iff (nick prefix dest msg : string) :
  is_Some (addressed nick prefix dest msg) ↔
  bool_decide (dest = nick) || PyStr.startswith msg nick = true.
Proof.
  unfold addressed. destruct (String.eqb_spec dest nick).
  - rewrite bool_decide_eq_true_2 by done. by split; [|eexists].
  - rewrite bool_decide_eq_false_2 by done. simpl.
    destruct (PyStr.startswith msg nick); [by split; [|eexists]|].
    split; [by intros [? ?]|done].
Qed.

(** X10. When [tryBotCommand] returns, its answer is [True] exactly when
    the message is addressed to the bot, by destination or by leading nick.
    It raises in two cases only, both after the command has resolved: the
    resolved value is a tuple of other than one item, which fails the debug
    record of [run] with [TypeError], or the invoked command raised outside
    [Exception], which passes unchanged.  No error of the resolution and
    nothing a command raises within [Exception] leaves [tryBotCommand]. *)
Theorem tryBotCommand_outcome (handler : value)
    (prefix dest msg : string) (w : world) :
  (∀ w' b, tryBotCommand handler prefix dest msg w = (w', Return b) →
     b = bool_decide (dest = nick w) || PyStr.startswith msg (nick w)) ∧
  (∀ w' e, tryBotCommand handler prefix dest msg w = (w', Raise e) →
     ∃ dest' line f,
       addressed (nick w) prefix dest msg = Some (dest', line) ∧
       get handler (CmdStr (command_of line)) = Return f ∧
       ((e = TypeError ∧ ∃ n, cls_of f = ClsTuple n ∧ n ≠ 1)
        ∨ (is_Exception e = false ∧
           invoke f (prefix :: dest' :: arg_of line)
             (logging DEBUG ResolvedTo
                (announced (CmdStr (command_of line))
                   (prefix :: dest' :: arg_of line)
                   (logging DEBUG (TryBotCommand prefix dest msg) w)))
             = (w', Raise e)))).
Proof.
  destruct (addressed (nick w) prefix dest msg) as [[dest' line]|] eqn:Ha.
  - assert (bool_decide (dest = nick w) || PyStr.startswith msg (nick w) = true)
      as Hb by (apply (proj1 (addressed_iff (nick w) prefix dest msg));
                rewrite Ha; by eexists).
    rewrite (tryBotCommand_reported _ _ _ _ _ _ _ Ha). unfold reported.
    destruct (run handler _ _ _) as [w1 [[]|e]] eqn:Hrun.
    + split; [|done]. intros w' b [= _ <-]. by rewrite Hb.
    + destruct (is_CommandError e) eqn:He.
      * split; [|done]. intros w' b [= _ <-]. by rewrite Hb.
      * split; [done|]. intros w' e' [= <- <-].
        apply run_text_raises in Hrun as [Hc|(f & Hget & Hcase)];
          [congruence|].
        by exists dest', line, f.
  - unfold tryBotCommand. cbn [logging emit nick]. rewrite Ha.
    split; [|done]. intros w' b [= _ <-].
    destruct (bool_decide (dest = nick w) || PyStr.startswith msg (nick w))
      eqn:Hb; [|done].
    apply (proj2 (addressed_iff (nick w) prefix dest msg)) in Hb as [? Hb].
    congruence.
Qed.

Example tryBotCommand_raises_on_second_tree :
  snd (tryBotCommand Sample.daemon "alice!u@h" "#chan" "bot: quit"
         Sample.quiet) = Raise (BaseOnly "SystemExit") ∧
  snd (tryBotCommand Sample.daemon "alice!u@h" "#chan" "bot: aliases"
         Sample.quiet) = Raise TypeError ∧
  snd (tryBotCommand Sample.daemon "alice!u@h" "#chan" "bot: aliases.count"
         Sample.quiet) = Return true.
Proof. repeat split; by vm_compute. Qed.

(** X11. [privmsg] leaves the world exactly as [tryBotCommand] does on the
    same message; it returns nothing whenever [tryBotCommand] returns, and
    raises what [tryBotCommand] raises.  In particular it returns for
    every message that is not addressed to the bot and for every addressed
    command that [get] does not resolve. *)
Theorem privmsg_follows_tryBotCommand (handler : value)
    (prefix dest msg : string) (w : world) :
  fst (privmsg handler prefix dest msg w)
    = fst (tryBotCommand handler prefix dest msg w) ∧
  (∀ b, snd (tryBotCommand handler prefix dest msg w) = Return b →
        snd (privmsg handler prefix dest msg w) = Return ()) ∧
  (∀ e, snd (tryBotCommand handler prefix dest msg w) = Raise e →
        snd (privmsg handler prefix dest msg w) = Raise e) ∧
  (addressed (nick w) prefix dest msg = None →
   snd (privmsg handler prefix dest msg w) = Return ()) ∧
  (∀ dest' line e,
     addressed (nick w) prefix dest msg = Some (dest', line) →
     get handler (CmdStr (command_of line)) = Raise e →
     snd (privmsg handler prefix dest msg w) = Return ()).
Proof.
  assert (∀ b, snd (tryBotCommand handler prefix dest msg w) = Return b →
               snd (privmsg handler prefix dest msg w) = Return ()) as Hret.
  { unfold privmsg.
    destruct (tryBotCommand handler prefix dest msg w) as [w1 [b'|e]];
      [done|]. by intros b [=]. }
  split; [|split; [exact Hret|split; [|split]]].
  - unfold privmsg.
    by destruct (tryBotCommand handler prefix dest msg w) as [w1 [b|e]].
  - unfold privmsg.
    destruct (tryBotCommand handler prefix dest msg w) as [w1 [b|e']];
      [by intros e [=]|]. by intros e [= ->].
  - intros Ha. apply (Hret false). unfold tryBotCommand.
    cbn [logging emit nick]. by rewrite Ha.
  - intros dest' line e Ha Hget. apply (Hret true).
    by apply (tryBotCommand_unresolved _ _ _ _ _ dest' line e).
Qed.

(** X12. A message sent to the nick itself is always taken as a command:
    its whole text is the command line, even when it begins with the nick,
    and replies go to the nick parsed out of the sender's prefix instead of
    the destination. *)
Theorem tryBotCommand_direct_message (handler : value)
    (prefix dest msg : string) (w : world) :
  dest = nick w →
  tryBotCommand handler prefix dest msg w =
    reported (parse_nick prefix)
      (run handler (CmdStr (command_of msg))
         (prefix :: parse_nick prefix :: arg_of msg)
         (logging DEBUG (TryBotCommand prefix dest msg) w)).
Proof.
  intros ->. apply tryBotCommand_reported. unfold addressed.
  by rewrite String.eqb_refl.
Qed.

Lemma tryBotCommand_direct_message_witness :
  tryBotCommand Sample.root "alice!u@h" "bot" "bot hello" Sample.quiet =
    reported "alice"
      (run Sample.root (CmdStr "bot") ["alice!u@h"; "alice"; "hello"]
         (logging DEBUG (TryBotCommand "alice!u@h" "bot" "bot hello")
            Sample.quiet)).
Proof.
  exact (tryBotCommand_direct_message Sample.root "alice!u@h" "bot"
           "bot hello" Sample.quiet eq_refl).
Defined.

(** X13. In a channel, a text that begins with the nick is a command
    whatever the character after the nick is: that one character is
    dropped and the rest is the command line, replies going to the
    channel.  A text that is the nick alone gives the empty command
    line. *)
Theorem tryBotCommand_channel_addressing (handler : value)
    (prefix dest : string) (c : ascii) (rest : string) (w : world) :
  dest ≠ nick w →
  tryBotCommand handler prefix dest (nick w +:+ String c rest) w =
    reported dest
      (run handler (CmdStr (command_of rest)) (prefix :: dest :: arg_of rest)
         (logging DEBUG (TryBotCommand prefix dest (nick w +:+ String c rest))
            w))
  ∧ addressed (nick w) prefix dest (nick w) = Some (dest, EmptyString).
Proof.
  intros Hdest. apply String.eqb_neq in Hdest. split.
  - apply tryBotCommand_reported. unfold addressed, PyStr.startswith.
    by rewrite Hdest, prefix_app, slice_from_app.
  - unfold addressed, PyStr.startswith. rewrite Hdest.
    by rewrite prefix_self, slice_from_all.
Qed.

Lemma tryBotCommand_channel_addressing_witness :
  "#chan" ≠ nick Sample.quiet ∧
  tryBotCommand Sample.root "alice!u@h" "#chan" "bot,admin.ban bob"
      Sample.quiet =
    reported "#chan"
      (run Sample.root (CmdStr "admin.ban") ["alice!u@h"; "#chan"; "bob"]
         (logging DEBUG (TryBotCommand "alice!u@h" "#chan" "bot,admin.ban bob")
            Sample.quiet)).
Proof.
  split; [done|].
  apply (tryBotCommand_channel_addressing Sample.root "alice!u@h" "#chan"
           "," "admin.ban bob" Sample.quiet). done.
Defined.

(** X14. A command addressed to the bot that does not resolve is dropped
    in silence: the fallback logs it, no message is sent, and the answer is
    still [True]. *)
Theorem tryBotCommand_unknown_command_silent (handler : value)
    (prefix dest msg : string) (w : world) (dest' line : string)
    (q : list string) :
  addressed (nick w) prefix dest msg = Some (dest', line) →
  get handler (CmdStr (command_of line)) = Raise (NoSuchCommandError q) →
  let command := CmdStr (command_of line) in
  let args := prefix :: dest' :: arg_of line in
  tryBotCommand handler prefix dest msg w =
    (World (nick w)
       (trace w ++ [Logged DEBUG (TryBotCommand prefix dest msg);
                    Logged DEBUG (ProcessCommand command args);
                    Logged INFO (ProcessCommand command args);
                    Logged DEBUG (UnhandledCommand command args)]),
     Return true).
Proof.
  intros Ha Hget command args. subst command args.
  rewrite (tryBotCommand_reported _ _ _ _ _ _ _ Ha).
  unfold run. rewrite Hget.
  unfold reported, __unhandled__, logging, emit. simpl.
  by rewrite <- !app_assoc.
Qed.

Lemma tryBotCommand_unknown_command_silent_witness :
  tryBotCommand Sample.root "alice!u@h" "#chan" "bot: dance now" Sample.quiet =
    (World "bot"
       [Logged DEBUG (TryBotCommand "alice!u@h" "#chan" "bot: dance now");
        Logged DEBUG (ProcessCommand (CmdStr "dance")
                        ["alice!u@h"; "#chan"; "now"]);
        Logged INFO (ProcessCommand (CmdStr "dance")
                       ["alice!u@h"; "#chan"; "now"]);
        Logged DEBUG (UnhandledCommand (CmdStr "dance")
                        ["alice!u@h"; "#chan"; "now"])],
     Return true).
Proof.
  apply (tryBotCommand_unknown_command_silent Sample.root "alice!u@h" "#chan"
           "bot: dance now" Sample.quiet "#chan" " dance now" ["dance"]);
    by vm_compute.
Defined.

(** X15. A command addressed to the bot that [get] refuses as protected is
    not invoked: the rendered [ProtectedCommandError] is sent to the reply
    destination and the answer is [True]. *)
Theorem tryBotCommand_protected_command_answered (handler : value)
    (prefix dest msg : string) (w : world) (dest' line : string)
    (q : list string) :
  addressed (nick w) prefix dest msg = Some (dest', line) →
  get handler (CmdStr (command_of line)) = Raise (ProtectedCommandError q) →
  let command := CmdStr (command_of line) in
  let args := prefix :: dest' :: arg_of line in
  tryBotCommand handler prefix dest msg w =
    (World (nick w)
       (trace w ++ [Logged DEBUG (TryBotCommand prefix dest msg);
                    Logged DEBUG (ProcessCommand command args);
                    Logged INFO (ProcessCommand command args);
                    Privmsg dest' (str_error (ProtectedCommandError q))]),
     Return true).
Proof.
  intros Ha Hget command args. subst command args.
  rewrite (tryBotCommand_reported _ _ _ _ _ _ _ Ha).
  unfold run. rewrite Hget.
  unfold reported, helpers_msg, logging, emit. simpl.
  by rewrite <- !app_assoc.
Qed.

Lemma tryBotCommand_protected_command_answered_witness :
  tryBotCommand Sample.root "alice!u@h" "bot" "shutdown" Sample.quiet =
    (World "bot"
       [Logged DEBUG (TryBotCommand "alice!u@h" "bot" "shutdown");
        Logged DEBUG (ProcessCommand (CmdStr "shutdown")
                        ["alice!u@h"; "alice"]);
        Logged INFO (ProcessCommand (CmdStr "shutdown")
                       ["alice!u@h"; "alice"]);
        Privmsg "alice" "shutdown is protected"],
     Return true).
Proof.
  apply (tryBotCommand_protected_command_answered Sample.root "alice!u@h"
           "bot" "shutdown" Sample.quiet "alice" "shutdown" ["shutdown"]);
    by vm_compute.
Defined.

(** X16. The command line is cut at its first space: the command name
    holds no space, at most one remainder follows it (so a command is
    called with two or three arguments after the client), and name and
    remainder joined by a space give back the line without its surrounding
    whitespace. *)
Theorem command_line_parts (line : string) :
  (" "%char ∉ String.list_ascii_of_string (command_of line)) ∧
  (length (arg_of line) ≤ 1)%nat ∧
  PyStr.join " " (command_of line :: arg_of line) = PyStr.strip line.
Proof.
  unfold command_of, arg_of.
  destruct (split1_parts " " (PyStr.strip line)) as (h & t & -> & ? & ? & ?).
  done.
Qed.

(** X17. The command name is empty exactly when the command line holds
    nothing but whitespace; the remainder is then absent. *)
Theorem command_empty_iff_blank (line : string) :
  (command_of line = EmptyString ↔ blank line) ∧
  (blank line → arg_of line = []).
Proof.
  unfold command_of, arg_of. rewrite <- strip_empty.
  destruct (PyStr.strip line) as [|c r] eqn:Hs; [done|].
  apply strip_head in Hs. split; [|done]. split; [|done].
  simpl. destruct (Ascii.eqb c " ") eqn:Hc.
  - apply Ascii.eqb_eq in Hc as ->. by rewrite isspace_space in Hs.
  - by destruct (PyStr.split1 " " r).
Qed.

(** ** More on visibility *)

Section VisibilityMore.

Implicit Types (self obj v : value) (m : string).

Lemma elem_of_visible obj m :
  m ∈ (filter (λ kv, public kv ∧ hasattr kv.2 "protected" = false)
         (getmembers obj test)).*1
  ↔ listable obj m.
Proof.
  rewrite list_elem_of_fmap. unfold listable. split.
  - intros ([m' v] & -> & Hin). apply list_elem_of_filter in Hin as [[Hu Hp] Hin].
    apply elem_of_getmembers in Hin as [Hg Ht]. by exists v.
  - intros (v & Hg & Ht & Hu & Hp). exists (m, v). split; [done|].
    apply list_elem_of_filter. split; [done|]. by apply elem_of_getmembers.
Qed.

Lemma NoDup_getmembers_names obj : NoDup (getmembers obj test).*1.
Proof.
  unfold getmembers. rewrite merge_sort_Permutation.
  eapply sublist_NoDup; [apply (NoDup_fst_map_to_list (attrs_of obj))|].
  apply fmap_sublist, sublist_filter.
Qed.

(** A single segment resolves exactly when it is an open attribute. *)
Lemma get_single obj m v :
  get obj (CmdList [m]) = Return v ↔
  PyStr.startswith m "_" = false ∧ getattr obj m = Some v
  ∧ hasattr v "protected" = false.
Proof.
  unfold get. simpl.
  destruct (PyStr.startswith m "_"); [by split; [|intros (? & _)]|].
  destruct (getattr obj m) as [x|]; [|by split; [|intros (_ & ? & _)]].
  destruct (hasattr x "protected") eqn:Hp.
  - split; [done|]. intros (_ & [= ->] & ?). congruence.
  - rewrite andb_false_r. simpl. split.
    + by intros [= ->].
    + by intros (_ & [= ->] & _).
Qed.

End VisibilityMore.

(** X18. Given a node that counts as true, as every handler, bound method
    and function does, [getVisibleCommands] returns, each once, exactly the
    names of the node's attributes that are sub-handlers, bound methods or
    functions, have no leading underscore and do not carry the protection
    flag; the receiver then plays no part.  (An argument that counts as
    false is replaced by the receiver for the enumeration.) *)
Theorem getVisibleCommands_lists_exactly (self obj : value) :
  truthy obj = true →
  ∃ names, getVisibleCommands self obj = Return names ∧ NoDup names ∧
    ∀ m, m ∈ names ↔
      ∃ v, getattr obj m = Some v ∧ test v = true
           ∧ PyStr.startswith m "_" = false ∧ hasattr v "protected" = false.
Proof.
  intros Ht. rewrite (getVisibleCommands_of_node self obj Ht).
  eexists. split; [done|]. split.
  - eapply sublist_NoDup; [apply (NoDup_getmembers_names obj)|].
    apply fmap_sublist, sublist_filter.
  - intros m. apply elem_of_visible.
Qed.

Lemma getVisibleCommands_lists_exactly_witness :
  ∃ names, getVisibleCommands Sample.root Sample.admin = Return names
    ∧ NoDup names ∧
    ∀ m, m ∈ names ↔
      ∃ v, getattr Sample.admin m = Some v ∧ test v = true
           ∧ PyStr.startswith m "_" = false ∧ hasattr v "protected" = false.
Proof.
  exact (getVisibleCommands_lists_exactly Sample.root Sample.admin eq_refl).
Defined.

(** X19. Called without an argument, [getVisibleCommands] can only return
    the empty list, and it does so only on a receiver none of whose
    sub-handlers, methods and functions has a name without a leading
    underscore; on any other receiver it raises [AttributeError] for such a
    name. *)
Theorem getVisibleCommands_no_argument_outcome (self : value) :
  (getVisibleCommands self PyNone = Return [] ∧
   ∀ m v, getattr self m = Some v → test v = true →
          PyStr.startswith m "_" = true)
  ∨ (∃ m v, getVisibleCommands self PyNone = Raise (AttributeError m) ∧
            getattr self m = Some v ∧ test v = true ∧
            PyStr.startswith m "_" = false).
Proof.
  rewrite getVisibleCommands_no_argument.
  destruct (filter public (getmembers self test)) as [|[m v] l] eqn:Hf.
  - left. split; [done|]. intros m v Hg Ht.
    destruct (PyStr.startswith m "_") eqn:Hu; [done|].
    assert ((m, v) ∈ filter public (getmembers self test)) as Hin.
    { apply list_elem_of_filter. split; [done|]. by apply elem_of_getmembers. }
    rewrite Hf in Hin. by apply elem_of_nil in Hin.
  - right. exists m, v. split; [done|].
    assert ((m, v) ∈ filter public (getmembers self test)) as Hin
      by (rewrite Hf; left).
    apply list_elem_of_filter in Hin as [Hu Hin].
    apply elem_of_getmembers in Hin as [Hg Ht]. done.
Qed.

(** X20. The names [getVisibleCommands] lists for a node are exactly the
    single-segment commands that [get] resolves on that node to a
    sub-handler, a bound method or a function. *)
Theorem listed_commands_resolve (self obj : value) (names : list string) :
  truthy obj = true →
  getVisibleCommands self obj = Return names →
  ∀ m, m ∈ names ↔ ∃ v, get obj (CmdList [m]) = Return v ∧ test v = true.
Proof.
  intros Ht. rewrite (getVisibleCommands_of_node self obj Ht).
  intros [= <-] m. rewrite elem_of_visible. unfold listable. split.
  - intros (v & Hg & Htest & Hu & Hp). exists v. split; [|done].
    by apply get_single.
  - intros (v & Hget & Htest). apply get_single in Hget as (Hu & Hg & Hp).
    by exists v.
Qed.

Lemma listed_commands_resolve_witness :
  getVisibleCommands Sample.root Sample.root
    = Return ["admin"; "crash"; "hello"] ∧
  ("hello" ∈ ["admin"; "crash"; "hello"] ↔
   ∃ v, get Sample.root (CmdList ["hello"]) = Return v ∧ test v = true).
Proof.
  assert (getVisibleCommands Sample.root Sample.root
          = Return ["admin"; "crash"; "hello"]) as Hlist by (by vm_compute).
  split; [exact Hlist|].
  exact (listed_commands_resolve Sample.root Sample.root _ eq_refl Hlist
           "hello").
Defined.

(** ** Order of the listing *)

Section Order.

Lemma string_compare_trans (a : string) : ∀ b c,
  String.compare a b ≠ Gt → String.compare b c ≠ Gt →
  String.compare a c ≠ Gt.
Proof.
  induction a as [|x a IH]; intros [|y b] [|z c]; simpl; try done.
  unfold Ascii.compare.
  destruct (N.compare_spec (N_of_ascii x) (N_of_ascii y)) as [Hxy|Hxy|Hxy];
    [|  |done];
    (destruct (N.compare_spec (N_of_ascii y) (N_of_ascii z)) as [Hyz|Hyz|Hyz];
      [| |done]);
    destruct (N.compare_spec (N_of_ascii x) (N_of_ascii z)) as [Hxz|Hxz|Hxz];
    try done; try lia.
  apply IH.
Qed.

Lemma leb_not_Gt (a b : string) : String.leb a b = true ↔ String.compare a b ≠ Gt.
Proof. unfold String.leb. by destruct (String.compare a b). Qed.

#[local] Instance name_le_trans : Transitive name_le.
Proof.
  intros a b c. unfold name_le. rewrite !Is_true_true, !leb_not_Gt.
  apply string_compare_trans.
Qed.

#[local] Instance name_le_total : Total name_le.
Proof.
  intros a b. unfold name_le. rewrite !Is_true_true.
  apply String.leb_total.
Qed.

Lemma StronglySorted_filter {A} (R : relation A) (P : A → Prop)
    `{∀ x, Decision (P x)} (l : list A) :
  StronglySorted R l → StronglySorted R (filter P l).
Proof.
  induction 1 as [|x l Hl IH Hx]; [constructor|].
  rewrite filter_cons. destruct (decide (P x)); [|done].
  constructor; [done|]. rewrite Forall_forall in Hx |- *.
  intros y Hy. apply list_elem_of_filter in Hy as [_ Hy]. by apply Hx.
Qed.

Lemma getmembers_sorted (obj : value) (predicate : value → bool) :
  StronglySorted name_le (getmembers obj predicate).
Proof. apply StronglySorted_merge_sort; apply _. Qed.

End Order.

(** X21. The names [getVisibleCommands] returns for a node come in
    ascending order of name, the order in which the members were
    enumerated. *)
Theorem getVisibleCommands_sorted (self obj : value) (names : list string) :
  truthy obj = true →
  getVisibleCommands self obj = Return names →
  StronglySorted (λ a b, String.leb a b = true) names.
Proof.
  intros Ht. rewrite (getVisibleCommands_of_node self obj Ht). intros [= <-].
  apply (StronglySorted_fmap fst name_le).
  - intros a b. unfold name_le. by rewrite Is_true_true.
  - apply StronglySorted_filter, getmembers_sorted.
Qed.

Lemma getVisibleCommands_sorted_witness :
  getVisibleCommands Sample.root Sample.root
    = Return ["admin"; "crash"; "hello"] ∧
  StronglySorted (λ a b, String.leb a b = true) ["admin"; "crash"; "hello"].
Proof.
  assert (getVisibleCommands Sample.root Sample.root
          = Return ["admin"; "crash"; "hello"]) as Hlist by (by vm_compute).
  split; [exact Hlist|].
  exact (getVisibleCommands_sorted Sample.root Sample.root _ eq_refl Hlist).
Defined.

(** ** Edge inputs *)

(** X22. Given a command as text, [get] can only fail with
    [NoSuchCommandError] or [ProtectedCommandError], both instances of
    [CommandError]: a text always splits into at least one segment, so the
    unbound variable of the empty sequence cannot show. *)
Theorem get_text_fails_as_CommandError (self : value) (s : string) (e : exn) :
  get self (CmdStr s) = Raise e →
  ((∃ q, e = NoSuchCommandError q) ∨ (∃ q, e = ProtectedCommandError q))
  ∧ is_CommandError e = true.
Proof.
  intros Hget. split; [|by apply (get_text_raises_CommandError self s)].
  apply get_raises in Hget as [?|[?|[_ Hn]]]; auto.
  by apply split_not_empty in Hn.
Qed.

Lemma get_text_fails_as_CommandError_witness :
  ((∃ q, NoSuchCommandError [EmptyString; EmptyString] = NoSuchCommandError q)
   ∨ (∃ q, NoSuchCommandError [EmptyString; EmptyString]
           = ProtectedCommandError q))
  ∧ is_CommandError (NoSuchCommandError [EmptyString; EmptyString]) = true.
Proof.
  apply (get_text_fails_as_CommandError Sample.root ".").
  by vm_compute.
Defined.

(** X23. A channel message made of the nick and nothing but whitespace
    after the dropped character asks for the command with the empty name.
    On a handler without an attribute of the empty name nothing resolves:
    the message is logged as unhandled, nothing is sent, and the answer is
    [True]. *)
Theorem tryBotCommand_blank_command (handler : value)
    (prefix dest : string) (c : ascii) (rest : string) (w : world) :
  dest ≠ nick w →
  blank rest →
  getattr handler EmptyString = None →
  let msg := nick w +:+ String c rest in
  tryBotCommand handler prefix dest msg w =
    (World (nick w)
       (trace w ++
          [Logged DEBUG (TryBotCommand prefix dest msg);
           Logged DEBUG (ProcessCommand (CmdStr EmptyString) [prefix; dest]);
           Logged INFO (ProcessCommand (CmdStr EmptyString) [prefix; dest]);
           Logged DEBUG (UnhandledCommand (CmdStr EmptyString) [prefix; dest])]),
     Return true).
Proof.
  intros Hdest Hblank Hmiss msg. subst msg.
  apply String.eqb_neq in Hdest.
  rewrite (tryBotCommand_reported handler prefix dest _ w dest rest).
  2:{ unfold addressed, PyStr.startswith.
      by rewrite Hdest, prefix_app, slice_from_app. }
  assert (PyStr.strip rest = EmptyString) as Hs by (by apply strip_empty).
  unfold command_of, arg_of. rewrite Hs. simpl hd. simpl tl.
  unfold run, get. simpl. rewrite Hmiss.
  unfold reported, __unhandled__, logging, emit. simpl.
  by rewrite <- !app_assoc.
Qed.

Lemma tryBotCommand_blank_command_witness :
  tryBotCommand Sample.root "alice!u@h" "#chan" "bot:  " Sample.quiet =
    (World "bot"
       [Logged DEBUG (TryBotCommand "alice!u@h" "#chan" "bot:  ");
        Logged DEBUG (ProcessCommand (CmdStr EmptyString)
                        ["alice!u@h"; "#chan"]);
        Logged INFO (ProcessCommand (CmdStr EmptyString)
                       ["alice!u@h"; "#chan"]);
        Logged DEBUG (UnhandledCommand (CmdStr EmptyString)
                        ["alice!u@h"; "#chan"])],
     Return true).
Proof.
  apply (tryBotCommand_blank_command Sample.root "alice!u@h" "#chan" ":"
           "  " Sample.quiet); [done | | by vm_compute].
  repeat constructor.
Defined.
